(** * Polar-plant EC dashboard: the load / aggregate pipeline of [main.py]

    A shallow embedding of the Streamlit script [src/main.py]: the
    NFC-safe filename resolver, the two loaders, the fail-fast barrier
    and the aggregation steps of the three tabs.

    Python objects that the script shares by reference (the two
    dictionaries [env_data] and [growth_data] and every pandas
    DataFrame) live in an explicit heap; the script itself runs in a
    small state / exception monad whose state is that heap plus the
    list of Streamlit elements emitted so far.

    Two library functions are not part of the repository and are taken
    as parameters of the development: [unicodedata.normalize("NFC", _)]
    and pandas' [Series.mean]. *)

From Stdlib Require Import ZArith QArith List String Ascii Bool Lia.
From stdpp Require Import base decidable option list strings.
Import ListNotations.

Local Open Scope string_scope.
Local Open Scope list_scope.
Local Open Scope nat_scope.

(* ===================================================================== *)
(** ** Python scalars *)
(* ===================================================================== *)

Module Py.

(** A Python [float].  Only comparisons of floats matter to the script
    itself (arithmetic happens inside pandas), and every finite binary64
    value is a rational, so the finite values are carried as [Q]. *)
Inductive pyfloat :=
| Finite (q : Q)
| Infinity (negative : bool)
| NaN.

(** [x < y] on floats, as IEEE 754 and Python have it: every comparison
    with NaN is false. *)
Definition float_lt (x y : pyfloat) : bool :=
  match x, y with
  | NaN, _ | _, NaN => false
  | Infinity true, Infinity true => false
  | Infinity true, _ => true
  | _, Infinity true => false
  | Infinity false, _ => false
  | _, Infinity false => true
  | Finite a, Finite b => (Qnum a * QDen b <? Qnum b * QDen a)%Z
  end.

(** [x > y] *)
Definition float_gt (x y : pyfloat) : bool := float_lt y x.

(** [x <= y] *)
Definition float_le (x y : pyfloat) : bool :=
  match x, y with
  | NaN, _ | _, NaN => false
  | _, _ => negb (float_lt y x)
  end.

Definition is_nan (x : pyfloat) : bool :=
  match x with NaN => true | _ => false end.

(** The scalars that occur as cells of a table, as dictionary keys and
    as elements of the row lists the script builds. *)
Inductive pyval :=
| VNone
| VInt (n : Z)
| VFloat (x : pyfloat)
| VStr (s : string).

#[global] Instance Q_eq_dec : EqDecision Q.
Proof. solve_decision. Defined.
#[global] Instance pyfloat_eq_dec : EqDecision pyfloat.
Proof. solve_decision. Defined.
#[global] Instance pyval_eq_dec : EqDecision pyval.
Proof. solve_decision. Defined.

(** Exceptions the script can die with. *)
Inductive exn :=
| KeyError (k : pyval)
| IndexError
| ValueError (msg : string)
| TypeError
| FileError (msg : string) (* whatever a pandas reader raises on a bad file *).

(** *** Insertion-ordered dictionaries

    A Python [dict] iterates in insertion order, and assigning to a key
    that is already present keeps the key's position.  The keys this
    script uses are always [str] objects, on which [==] is equality of
    the strings. *)
Definition dict (V : Type) := list (pyval * V).

Section Dict.
Context {V : Type}.

Fixpoint dict_get (k : pyval) (d : dict V) : option V :=
    match d with
    | [] => None
    | (k', v) :: d' => if decide (k = k') then Some v else dict_get k d'
    end.

  (** [d[k] = v] *)
Fixpoint dict_set (k : pyval) (v : V) (d : dict V) : dict V :=
    match d with
    | [] => [(k, v)]
    | (k', v') :: d' =>
        if decide (k = k') then (k', v) :: d' else (k', v') :: dict_set k v d'
    end.

Definition dict_keys (d : dict V) : list pyval := map fst d.
Definition dict_values (d : dict V) : list V := map snd d.

  (** truth value of a dictionary: [not d] is [True] exactly when [d] is empty *)
Definition dict_is_empty (d : dict V) : bool :=
    match d with [] => true | _ => false end.
End Dict.

(** [s.split(sep)[0]] for a one-character separator: the part of [s]
    before the first occurrence of [sep], all of [s] when there is none. *)
Fixpoint split_head (sep : ascii) (s : string) : string :=
  match s with
  | EmptyString => EmptyString
  | String c s' => if Ascii.eqb c sep then EmptyString else String c (split_head sep s')
  end.

(** [max(iterable, key=key)]: the running maximum is replaced only by an
    item whose key is strictly greater ([>]), so among equal keys the
    first item wins.  [None] stands for the [ValueError] on an empty
    iterable. *)
Section Max.
Context {A B : Type} (gt : B → B → bool) (key : A → B).

Fixpoint max_from (maxitem : A) (maxval : B) (l : list A) : A :=
    match l with
    | [] => maxitem
    | item :: l' =>
        let val := key item in
        if gt val maxval then max_from item val l' else max_from maxitem maxval l'
    end.

Definition max_key (l : list A) : option A :=
    match l with
    | [] => None
    | item :: l' => Some (max_from item (key item) l')
    end.
End Max.

End Py.
Export Py.

(* ===================================================================== *)
(** ** pandas tables *)
(* ===================================================================== *)

Module Pd.

(** One record of a table: the cell of each column. *)
Definition row := list (string * pyval).

(** A DataFrame: its column labels and its records, in index order.  A
    table read from a header-only file has columns and no rows. *)
Record DataFrame := mkFrame { columns : list string; rows : list row }.

(** A column taken out of a table ([df[col]]). *)
Definition Series := list pyval.

#[global] Instance DataFrame_eq_dec : EqDecision DataFrame.
Proof. solve_decision. Defined.

(** The cell of column [c]; pandas shows a cell the record does not have
    as NaN. *)
Fixpoint cell (c : string) (r : row) : pyval :=
  match r with
  | [] => VFloat NaN
  | (c', v) :: r' => if decide (c = c') then v else cell c r'
  end.

Fixpoint set_cell (c : string) (v : pyval) (r : row) : row :=
  match r with
  | [] => [(c, v)]
  | (c', v') :: r' =>
      if decide (c = c') then (c', v) :: r' else (c', v') :: set_cell c v r'
  end.

(** [len(df)] *)
Definition frame_len (df : DataFrame) : Z := Z.of_nat (length (rows df)).

(** [df[col]]: [KeyError] when the table has no such column. *)
Definition frame_getitem (col : string) (df : DataFrame) : exn + Series :=
  if decide (col ∈ columns df) then inr (map (cell col) (rows df))
  else inl (KeyError (VStr col)).

(** [df[col] = v] with a scalar [v]: the column is overwritten, or added
    as the last one, and every record gets [v]. *)
Definition frame_setitem (col : string) (v : pyval) (df : DataFrame) : DataFrame :=
  {| columns := if decide (col ∈ columns df) then columns df else columns df ++ [col];
     rows := map (set_cell col v) (rows df) |}.

(** [series.iloc[0]] *)
Definition iloc0 (s : Series) : exn + pyval :=
  match s with
  | [] => inl IndexError
  | v :: _ => inr v
  end.

(** [pd.DataFrame(data, columns=cols)] for a list of equally long lists. *)
Definition frame_of_lists (data : list (list pyval)) (cols : list string) : DataFrame :=
  {| columns := cols; rows := map (combine cols) data |}.

(** Columns of a concatenation: the union of the inputs' columns, in
    order of first appearance (outer join, unsorted). *)
Definition add_columns (acc new : list string) : list string :=
  acc ++ filter (λ c, c ∉ acc) new.

Definition union_columns (dfs : list DataFrame) : list string :=
  fold_left (λ acc df, add_columns acc (columns df)) dfs [].

(** A record aligned to the columns [cols]; cells it lacks become NaN. *)
Definition reindex (cols : list string) (r : row) : row :=
  map (λ c, (c, cell c r)) cols.

(** [pd.concat(tables)]: the records of all tables, one after the other,
    each aligned to the union of the columns. *)
Definition frame_concat (dfs : list DataFrame) : exn + DataFrame :=
  match dfs with
  | [] => inl (ValueError "No objects to concatenate")
  | _ =>
      let cols := union_columns dfs in
      inr {| columns := cols;
             rows := flat_map (λ df, map (reindex cols) (rows df)) dfs |}
  end.

End Pd.
Export Pd.

(* ===================================================================== *)
(** ** The run-time: heap, Streamlit page, exceptions *)
(* ===================================================================== *)

Module Rt.

Definition addr := nat.

(** The objects the script holds references to. *)
Inductive obj :=
| ODict (d : dict addr)     (* a dictionary of tables: env_data, growth_data *)
| OFrame (df : DataFrame).

(** What the script has put on the page, in order.  Charts and widgets
    are opaque: they carry the tables and values handed to them. *)
Inductive element :=
| st_set_page_config
| st_markdown
| st_spinner
| st_error (msg : string)
| st_sidebar_title
| st_sidebar_selectbox
| st_title
| st_tabs
| st_subheader (text : string)
| st_write
| st_dataframe (table : addr)
| st_metric (label : string) (args : list pyval)
| st_plotly_chart (title : string) (data : list addr) (marks : list pyval)
| st_download_button (label : string) (file_name : string) (data : addr).

#[global] Instance element_eq_dec : EqDecision element.
Proof. solve_decision. Defined.

Record state := mkState { heap : list obj; page : list element }.

(** How a computation ends: with a value, with an exception, or with
    [st.stop()], which ends the script run. *)
Inductive outcome (A : Type) :=
| Return (a : A)
| Raise (e : exn)
| Halt.
Arguments Return {A} a.
Arguments Raise {A} e.
Arguments Halt {A}.

Definition M (A : Type) := state → outcome A * state.

Definition ret {A} (a : A) : M A := λ s, (Return a, s).

Definition bind {A B} (c : M A) (k : A → M B) : M B :=
  λ s, match c s with
       | (Return a, s') => k a s'
       | (Raise e, s') => (Raise e, s')
       | (Halt, s') => (Halt, s')
       end.

Definition raise {A} (e : exn) : M A := λ s, (Raise e, s).

Definition st_stop {A} : M A := λ s, (Halt, s).

Definition lift {A} (r : exn + A) : M A :=
  match r with
  | inl e => raise e
  | inr a => ret a
  end.

(** a new object, at the next free address *)
Definition alloc (o : obj) : M addr :=
  λ s, (Return (length (heap s)), {| heap := heap s ++ [o]; page := page s |}).

Definition load (a : addr) : M obj :=
  λ s, match heap s !! a with
       | Some o => (Return o, s)
       | None => (Raise TypeError, s)
       end.

(** in-place update of the object at [a] *)
Definition store (a : addr) (o : obj) : M unit :=
  λ s, (Return tt, {| heap := <[a := o]> (heap s); page := page s |}).

Definition emit (e : element) : M unit :=
  λ s, (Return tt, {| heap := heap s; page := page s ++ [e] |}).

Declare Scope script_scope.
Delimit Scope script_scope with script.
Notation "x <- c ;; k" := (bind c (λ x, k))
  (at level 100, c at next level, right associativity) : script_scope.
Notation "c ;; k" := (bind c (λ _, k))
  (at level 100, k at level 200, right associativity) : script_scope.
Local Open Scope script_scope.

Definition load_frame (a : addr) : M DataFrame :=
  o <- load a ;;
  match o with
  | OFrame df => ret df
  | ODict _ => raise TypeError
  end.

Definition load_dict (a : addr) : M (dict addr) :=
  o <- load a ;;
  match o with
  | ODict d => ret d
  | OFrame _ => raise TypeError
  end.

(** [{}] *)
Definition new_dict : M addr := alloc (ODict []).

(** [d[k] = v] on a dictionary object *)
Definition dict_setitem (d : addr) (k : pyval) (v : addr) : M unit :=
  items <- load_dict d ;;
  store d (ODict (dict_set k v items)).

(** [d[k]] on a dictionary value: [KeyError] when [k] is absent. *)
Definition dict_getitem {V} (k : pyval) (d : dict V) : M V :=
  match dict_get k d with
  | Some v => ret v
  | None => raise (KeyError k)
  end.

(** [d.get(k)]: [None] when [k] is absent. *)
Definition dict_get_or_None (k : pyval) (d : dict pyval) : pyval :=
  match dict_get k d with
  | Some v => v
  | None => VNone
  end.

(** [len(df)] *)
Definition df_len (df : addr) : M Z :=
  t <- load_frame df ;; ret (frame_len t).

(** [df[col]] *)
Definition df_getitem (df : addr) (col : string) : M Series :=
  t <- load_frame df ;; lift (frame_getitem col t).

(** [df[col] = v]: mutates the table object. *)
Definition df_setitem (df : addr) (col : string) (v : pyval) : M unit :=
  t <- load_frame df ;; store df (OFrame (frame_setitem col v t)).

(** [pd.DataFrame(data, columns=cols)]: a new table object. *)
Definition pd_DataFrame (data : list (list pyval)) (cols : list string) : M addr :=
  alloc (OFrame (frame_of_lists data cols)).

Fixpoint load_frames (l : list addr) : M (list DataFrame) :=
  match l with
  | [] => ret []
  | a :: l' => t <- load_frame a ;; ts <- load_frames l' ;; ret (t :: ts)
  end.

(** [pd.concat(tables)]: a new table object; the inputs are only read. *)
Definition pd_concat (tables : list addr) : M addr :=
  ts <- load_frames tables ;;
  t <- lift (frame_concat ts) ;;
  alloc (OFrame t).

End Rt.
Export Rt.

(* ===================================================================== *)
(** ** The script [main.py] *)
(* ===================================================================== *)

(** The two library functions the script calls and the repository does
    not contain. *)
Class Libraries := {
  (** [unicodedata.normalize("NFC", name)] *)
  unicodedata_normalize_NFC : string → string;
  (** [series.mean()]: a float (NaN for a column without values), or the
      exception pandas raises on a column it cannot average. *)
  Series_mean : Series → exn + pyfloat
}.

(** An entry of the data directory: its stored name, and what the pandas
    readers make of its contents. *)
Record file := mkFile {
  file_name : string;
  (** [pd.read_csv(path)] *)
  csv_contents : exn + DataFrame;
  (** [pd.ExcelFile(path)]: the sheets, by name, in workbook order *)
  excel_contents : exn + list (string * DataFrame)
}.

(** [directory.iterdir()] of an existing, readable directory: its
    entries in the order the file system enumerates them. *)
Definition directory := list file.

Local Open Scope script_scope.

Section Script.
Context `{Libraries}.

(** *** Filename resolver (lines 46-54) *)

Definition normalize_name (name : string) : string :=
  unicodedata_normalize_NFC name.

Fixpoint find_file_loop (entries : list file) (target_nfc : string) : option file :=
  match entries with
  | [] => None
  | file :: rest =>
      if decide (normalize_name (file_name file) = target_nfc) then Some file
      else find_file_loop rest target_nfc
  end.

Definition find_file_safe (directory : directory) (target_name : string) : option file :=
  let target_nfc := normalize_name target_name in
  find_file_loop directory target_nfc.

(** *** Loaders (lines 59-98)

    [st.cache_data] memoises the two results between script runs; what
    is modelled is a run that computes them. *)

Definition csv_targets : list string :=
  [ "송도고_환경데이터.csv";
    "하늘고_환경데이터.csv";
    "아라고_환경데이터.csv";
    "동산고_환경데이터.csv" ].

Definition pd_read_csv (file_path : file) : M addr :=
  t <- lift (csv_contents file_path) ;; alloc (OFrame t).

Definition env_missing_message (name : string) : string :=
  "환경 데이터 파일을 찾을 수 없습니다: " ++ name.

(** the body of [for name in csv_targets] *)
Fixpoint load_environment_loop (DATA_DIR : directory) (env_data : addr)
    (names : list string) : M unit :=
  match names with
  | [] => ret tt
  | name :: rest =>
      match find_file_safe DATA_DIR name with
      | None =>
          emit (st_error (env_missing_message name)) ;;
          load_environment_loop DATA_DIR env_data rest
      | Some file_path =>
          df <- pd_read_csv file_path ;;
          df_setitem df "school" (VStr (split_head "_" name)) ;;
          school <- df_getitem df "school" ;;
          key <- lift (iloc0 school) ;;
          dict_setitem env_data key df ;;
          load_environment_loop DATA_DIR env_data rest
      end
  end.

Definition load_environment_data (DATA_DIR : directory) : M addr :=
  env_data <- new_dict ;;
  load_environment_loop DATA_DIR env_data csv_targets ;;
  ret env_data.

Definition xlsx_name : string := "4개교_생육결과데이터.xlsx".

(** [pd.read_excel(xls, sheet_name=sheet)] *)
Definition pd_read_excel (xls : list (string * DataFrame)) (sheet : string) : M addr :=
  match list_find (λ p, fst p = sheet) xls with
  | Some (_, (_, t)) => alloc (OFrame t)
  | None => raise (ValueError "Worksheet not found")
  end.

(** the body of [for sheet in xls.sheet_names] *)
Fixpoint load_growth_loop (xls : list (string * DataFrame)) (growth_data : addr)
    (sheet_names : list string) : M unit :=
  match sheet_names with
  | [] => ret tt
  | sheet :: rest =>
      df <- pd_read_excel xls sheet ;;
      df_setitem df "school" (VStr sheet) ;;
      dict_setitem growth_data (VStr sheet) df ;;
      load_growth_loop xls growth_data rest
  end.

Definition load_growth_data (DATA_DIR : directory) : M addr :=
  match find_file_safe DATA_DIR xlsx_name with
  | None =>
      emit (st_error "생육 결과 데이터 파일을 찾을 수 없습니다.") ;;
      new_dict
  | Some file_path =>
      xls <- lift (excel_contents file_path) ;;
      growth_data <- new_dict ;;
      load_growth_loop xls growth_data (map fst xls) ;;
      ret growth_data
  end.

(** *** Loading and the barrier (lines 103-108) *)

Definition load_all (DATA_DIR : directory) : M (addr * addr) :=
  emit st_spinner ;;
  env_data <- load_environment_data DATA_DIR ;;
  growth_data <- load_growth_data DATA_DIR ;;
  ret (env_data, growth_data).

(** [if not env_data or not growth_data: st.stop()] *)
Definition barrier (env_data growth_data : addr) : M unit :=
  e <- load_dict env_data ;;
  g <- load_dict growth_data ;;
  if dict_is_empty e || dict_is_empty g then st_stop else ret tt.

(** *** Experiment design (lines 113-125) *)

Definition EC_MAP : dict pyval :=
  [ (VStr "송도고", VFloat (Finite 1));
    (VStr "하늘고", VFloat (Finite 2));
    (VStr "아라고", VFloat (Finite 4));
    (VStr "동산고", VFloat (Finite 8)) ].

Definition COLOR_MAP : dict pyval :=
  [ (VStr "송도고", VStr "#1f77b4");
    (VStr "하늘고", VStr "#2ca02c");
    (VStr "아라고", VStr "#ff7f0e");
    (VStr "동산고", VStr "#d62728") ].

(** *** Sidebar (lines 130-138) *)

Definition school_options : list string :=
  [ "전체"; "송도고"; "하늘고"; "아라고"; "동산고" ].

Definition selected_schools (env_data : addr) (school_option : string) : M (list pyval) :=
  if decide (school_option = "전체") then
    e <- load_dict env_data ;; ret (dict_keys e)
  else ret [VStr school_option].

(** *** Tab 1: overview (lines 150-193) *)

(** the body of [for school, df in growth_data.items()], lines 161-169 *)
Fixpoint overview_loop (items : list (pyval * addr))
    (overview_rows : list (list pyval)) (total_plants : Z)
    : M (list (list pyval) * Z) :=
  match items with
  | [] => ret (overview_rows, total_plants)
  | (school, df) :: rest =>
      count <- df_len df ;;
      overview_loop rest
        (overview_rows ++
           [[school; dict_get_or_None school EC_MAP; VInt count;
             dict_get_or_None school COLOR_MAP]])
        (total_plants + count)%Z
  end.

Definition overview_columns : list string := [ "학교명"; "EC 목표"; "개체수"; "색상" ].

(** lines 159-174: the rows, the running total and [overview_df] *)
Definition overview (growth_data : addr) : M (list (list pyval) * Z * addr) :=
  g <- load_dict growth_data ;;
  r <- overview_loop g [] 0%Z ;;
  overview_df <- pd_DataFrame (fst r) overview_columns ;;
  ret (r, overview_df).

(** [df[col].mean()] *)
Definition column_mean (df : addr) (col : string) : M pyfloat :=
  s <- df_getitem df col ;; lift (Series_mean s).

(** [pd.concat(d.values())] *)
Definition concat_values (d : addr) : M addr :=
  items <- load_dict d ;; pd_concat (dict_values items).

(** [pd.concat(env_data.values())[col].mean()], lines 179-180 *)
Definition overall_mean (env_data : addr) (col : string) : M pyfloat :=
  all <- concat_values env_data ;; column_mean all col.

(** the dictionary comprehension of lines 182-185 *)
Fixpoint weight_means_loop (items : list (pyval * addr)) (acc : dict pyfloat)
    : M (dict pyfloat) :=
  match items with
  | [] => ret acc
  | (school, df) :: rest =>
      m <- column_mean df "생중량(g)" ;;
      weight_means_loop rest (dict_set school m acc)
  end.

Definition weight_means (growth_data : addr) : M (dict pyfloat) :=
  g <- load_dict growth_data ;; weight_means_loop g [].

(** [>] on what [weight_means.get] returns.  [max] applies [get] to the
    keys of [weight_means] only, so it never sees [None]. *)
Definition mean_gt (a b : option pyfloat) : bool :=
  match a, b with
  | Some x, Some y => float_gt x y
  | _, _ => false
  end.

(** [max(weight_means, key=weight_means.get)], line 186 *)
Definition optimal_school (weight_means : dict pyfloat) : exn + pyval :=
  match max_key mean_gt (λ school, dict_get school weight_means)
          (dict_keys weight_means) with
  | Some school => inr school
  | None => inl (ValueError "max() arg is an empty sequence")
  end.

Definition tab1 (env_data growth_data : addr) : M unit :=
  emit (st_subheader "🔬 연구 배경 및 목적") ;;
  emit st_write ;;
  ov <- overview growth_data ;;
  emit (st_subheader "🏫 학교별 EC 조건") ;;
  emit (st_dataframe (snd ov)) ;;
  avg_temp <- overall_mean env_data "temperature" ;;
  avg_hum <- overall_mean env_data "humidity" ;;
  means <- weight_means growth_data ;;
  best <- lift (optimal_school means) ;;
  optimal_ec <- dict_getitem best EC_MAP ;;
  emit (st_metric "총 개체수" [VInt (snd (fst ov))]) ;;
  emit (st_metric "평균 온도" [VFloat avg_temp]) ;;
  emit (st_metric "평균 습도" [VFloat avg_hum]) ;;
  emit (st_metric "최적 EC" [optimal_ec; best]).

(** *** Tab 2: environment (lines 198-259) *)

(** the body of [for school in selected_schools], lines 202-211 *)
Fixpoint avg_rows_loop (env_data : addr) (schools : list pyval)
    (avg_rows : list (list pyval)) : M (list (list pyval)) :=
  match schools with
  | [] => ret avg_rows
  | school :: rest =>
      e <- load_dict env_data ;;
      df <- dict_getitem school e ;;
      temperature <- column_mean df "temperature" ;;
      humidity <- column_mean df "humidity" ;;
      ph <- column_mean df "ph" ;;
      ec <- column_mean df "ec" ;;
      target <- dict_getitem school EC_MAP ;;
      avg_rows_loop env_data rest
        (avg_rows ++
           [[school; VFloat temperature; VFloat humidity; VFloat ph; VFloat ec; target]])
  end.

Definition avg_columns : list string := [ "학교"; "온도"; "습도"; "pH"; "실측 EC"; "목표 EC" ].

(** lines 201-216: [avg_rows] and [avg_df] *)
Definition environment_averages (env_data : addr) (selected : list pyval)
    : M (list (list pyval) * addr) :=
  avg_rows <- avg_rows_loop env_data selected [] ;;
  avg_df <- pd_DataFrame avg_rows avg_columns ;;
  ret (avg_rows, avg_df).

(** the time-series charts, lines 233-244 *)
Fixpoint time_series_loop (env_data : addr) (schools : list pyval) : M unit :=
  match schools with
  | [] => ret tt
  | school :: rest =>
      e <- load_dict env_data ;;
      df <- dict_getitem school e ;;
      target <- dict_getitem school EC_MAP ;;
      emit (st_plotly_chart "환경 변화" [df] [school; target]) ;;
      time_series_loop env_data rest
  end.

Definition tab2 (env_data : addr) (selected : list pyval) : M unit :=
  emit (st_subheader "📊 학교별 환경 평균 비교") ;;
  avg <- environment_averages env_data selected ;;
  emit (st_plotly_chart "환경 평균" [snd avg] []) ;;
  emit (st_subheader "⏱️ 학교별 시계열 변화") ;;
  time_series_loop env_data selected ;;
  full_env <- concat_values env_data ;;
  emit (st_dataframe full_env) ;;
  emit (st_download_button "CSV 다운로드" "환경데이터_전체.csv" full_env).

(** *** Tab 3: growth (lines 264-328) *)

(** the body of [for school, df in growth_data.items()], lines 268-269 *)
Fixpoint ec_weight_loop (items : list (pyval * addr)) (ec_weight : list (list pyval))
    : M (list (list pyval)) :=
  match items with
  | [] => ret ec_weight
  | (school, df) :: rest =>
      target <- dict_getitem school EC_MAP ;;
      m <- column_mean df "생중량(g)" ;;
      ec_weight_loop rest (ec_weight ++ [[school; target; VFloat m]])
  end.

Definition ec_columns : list string := [ "학교"; "EC"; "평균 생중량" ].

(** lines 267-271: [ec_weight] and [ec_df] *)
Definition weight_by_source (growth_data : addr) : M (list (list pyval) * addr) :=
  g <- load_dict growth_data ;;
  ec_weight <- ec_weight_loop g [] ;;
  ec_df <- pd_DataFrame ec_weight ec_columns ;;
  ret (ec_weight, ec_df).

Definition tab3 (growth_data : addr) : M unit :=
  emit (st_subheader "🥇 EC별 평균 생중량") ;;
  w <- weight_by_source growth_data ;;
  emit (st_plotly_chart "EC별 평균 생중량 비교" [snd w] []) ;;
  emit (st_subheader "📦 학교별 생중량 분포") ;;
  all_growth <- concat_values growth_data ;;
  emit (st_plotly_chart "생중량 분포" [all_growth] []) ;;
  emit (st_subheader "🔗 상관관계 분석") ;;
  emit (st_plotly_chart "잎 수(장)" [all_growth] []) ;;
  emit (st_plotly_chart "지상부 길이(mm)" [all_growth] []) ;;
  emit (st_dataframe all_growth) ;;
  emit (st_download_button "XLSX 다운로드" "생육결과_전체.xlsx" all_growth).

(** *** The whole script run *)

(** everything below the barrier of line 107 *)
Definition dashboard (env_data growth_data : addr) (school_option : string) : M unit :=
  emit st_sidebar_title ;;
  emit st_sidebar_selectbox ;;
  selected <- selected_schools env_data school_option ;;
  emit st_title ;;
  emit st_tabs ;;
  tab1 env_data growth_data ;;
  tab2 env_data selected ;;
  tab3 growth_data.

(** everything up to the barrier: page set-up and loading, lines 18-105 *)
Definition startup (DATA_DIR : directory) : M (addr * addr) :=
  emit st_set_page_config ;;
  emit st_markdown ;;
  load_all DATA_DIR.

Definition main (DATA_DIR : directory) (school_option : string) : M unit :=
  loaded <- startup DATA_DIR ;;
  barrier (fst loaded) (snd loaded) ;;
  dashboard (fst loaded) (snd loaded) school_option.

End Script.

(* ===================================================================== *)
(** ** A concrete instance of the libraries, and sample data *)
(* ===================================================================== *)

Module Sample.

(** *** Hangul composition

    The file names of the repository are Korean, and the difference the
    resolver has to bridge is between precomposed syllables (NFC) and
    conjoining jamo (NFD, as macOS stores names).  This is the Hangul
    composition of the Unicode standard (section 3.12) on UTF-8 strings;
    other characters are left as they are. *)

Local Open Scope N_scope.

Fixpoint utf8_decode (bytes : list N) : list N :=
  match bytes with
  | [] => []
  | b0 :: l1 =>
      if b0 <? 0xC0 then b0 :: utf8_decode l1 else
      match l1 with
      | [] => [b0]
      | b1 :: l2 =>
          if b0 <? 0xE0 then ((b0 - 0xC0) * 64 + (b1 - 0x80)) :: utf8_decode l2 else
          match l2 with
          | [] => [b0; b1]
          | b2 :: l3 =>
              if b0 <? 0xF0 then
                ((b0 - 0xE0) * 4096 + (b1 - 0x80) * 64 + (b2 - 0x80)) :: utf8_decode l3
              else
              match l3 with
              | [] => [b0; b1; b2]
              | b3 :: l4 =>
                  ((b0 - 0xF0) * 262144 + (b1 - 0x80) * 4096 + (b2 - 0x80) * 64
                   + (b3 - 0x80)) :: utf8_decode l4
              end
          end
      end
  end.

Definition utf8_encode_char (cp : N) : list N :=
  if cp <? 0x80 then [cp]
  else if cp <? 0x800 then [0xC0 + cp / 64; 0x80 + cp mod 64]
  else if cp <? 0x10000 then
    [0xE0 + cp / 4096; 0x80 + (cp / 64) mod 64; 0x80 + cp mod 64]
  else
    [0xF0 + cp / 262144; 0x80 + (cp / 4096) mod 64; 0x80 + (cp / 64) mod 64;
     0x80 + cp mod 64].

Definition code_points (s : string) : list N :=
  utf8_decode (map N_of_ascii (list_ascii_of_string s)).

Definition of_code_points (cps : list N) : string :=
  string_of_list_ascii (map ascii_of_N (flat_map utf8_encode_char cps)).

Definition SBase := 0xAC00.
Definition LBase := 0x1100.
Definition VBase := 0x1161.
Definition TBase := 0x11A7.
Definition LCount := 19.
Definition VCount := 21.
Definition TCount := 28.
Definition NCount := 588.
Definition SCount := 11172.

(** [done] holds the characters composed so far, last one first. *)
Fixpoint compose_loop (done : list N) (cps : list N) : list N :=
  match cps with
  | [] => rev done
  | ch :: rest =>
      match done with
      | last :: before =>
          if (LBase <=? last) && (last <? LBase + LCount)
             && (VBase <=? ch) && (ch <? VBase + VCount) then
            compose_loop
              ((SBase + ((last - LBase) * VCount + (ch - VBase)) * TCount) :: before) rest
          else if (SBase <=? last) && (last <? SBase + SCount)
                  && ((last - SBase) mod TCount =? 0)
                  && (TBase <? ch) && (ch <? TBase + TCount) then
            compose_loop ((last + (ch - TBase)) :: before) rest
          else compose_loop (ch :: done) rest
      | [] => compose_loop [ch] rest
      end
  end.

Definition hangul_nfc (s : string) : string :=
  of_code_points (compose_loop [] (code_points s)).

Definition decompose_char (cp : N) : list N :=
  if (SBase <=? cp) && (cp <? SBase + SCount) then
    let i := cp - SBase in
    let l := LBase + i / NCount in
    let v := VBase + (i mod NCount) / TCount in
    let t := TBase + i mod TCount in
    if t =? TBase then [l; v] else [l; v; t]
  else [cp].

(** the decomposed (NFD) spelling of a Hangul string *)
Definition hangul_nfd (s : string) : string :=
  of_code_points (flat_map decompose_char (code_points s)).

Local Close Scope N_scope.

(** *** An exact-arithmetic mean

    [Series.mean] with pandas' defaults: missing cells (NaN, None) are
    skipped, a column without values has mean NaN, a column holding
    text cannot be averaged.  Sums are exact rationals here. *)

Definition float_add (x y : pyfloat) : pyfloat :=
  match x, y with
  | NaN, _ | _, NaN => NaN
  | Infinity a, Infinity b => if Bool.eqb a b then Infinity a else NaN
  | Infinity a, _ | _, Infinity a => Infinity a
  | Finite a, Finite b => Finite (Qred (a + b))
  end.

Fixpoint sum_count (s : Series) (sum : pyfloat) (count : positive) (seen : bool)
    : exn + (pyfloat * positive * bool) :=
  match s with
  | [] => inr (sum, count, seen)
  | VNone :: s' | VFloat NaN :: s' => sum_count s' sum count seen
  | VInt n :: s' =>
      sum_count s' (float_add sum (Finite (inject_Z n)))
        (if seen then Pos.succ count else count) true
  | VFloat x :: s' =>
      sum_count s' (float_add sum x) (if seen then Pos.succ count else count) true
  | VStr _ :: _ => inl TypeError
  end.

Definition exact_mean (s : Series) : exn + pyfloat :=
  match sum_count s (Finite 0) 1%positive false with
  | inl e => inl e
  | inr (_, _, false) => inr NaN
  | inr (Finite q, n, true) => inr (Finite (Qred (q / inject_Z (Z.pos n))))
  | inr (x, _, true) => inr x
  end.

Definition libraries : Libraries :=
  {| unicodedata_normalize_NFC := hangul_nfc; Series_mean := exact_mean |}.

(** *** Sample data directories *)

Definition env_columns : list string := [ "time"; "temperature"; "humidity"; "ph"; "ec" ].

Definition env_table (readings : list (list pyval)) : DataFrame :=
  frame_of_lists readings env_columns.

Definition reading (time : string) (t h ph ec : Q) : list pyval :=
  [VStr time; VFloat (Finite t); VFloat (Finite h); VFloat (Finite ph); VFloat (Finite ec)].

Definition songdo_env : DataFrame :=
  env_table [ reading "2025-05-01 00:00" 22 55 (61 # 10) (11 # 10);
              reading "2025-05-01 00:10" 24 57 (63 # 10) (9 # 10) ].

Definition haneul_env : DataFrame :=
  env_table [ reading "2025-05-01 00:00" 21 60 6 2 ].

Definition ara_env : DataFrame :=
  env_table [ reading "2025-05-01 00:00" 23 58 (59 # 10) 4;
              reading "2025-05-01 00:10" 23 62 (61 # 10) (42 # 10);
              reading "2025-05-01 00:20" 23 60 6 (38 # 10) ].

Definition dongsan_env : DataFrame :=
  env_table [ reading "2025-05-01 00:00" 20 50 (65 # 10) 8 ].

(** a file with a header line and no data line *)
Definition header_only : DataFrame := env_table [].

Definition not_a_workbook : exn + list (string * DataFrame) :=
  inl (FileError "File is not a zip file").

Definition not_a_csv : exn + DataFrame :=
  inl (FileError "Error tokenizing data").

Definition csv_file (stored_name : string) (t : DataFrame) : file :=
  {| file_name := stored_name; csv_contents := inr t; excel_contents := not_a_workbook |}.

Definition growth_columns : list string :=
  [ "개체번호"; "잎 수(장)"; "지상부 길이(mm)"; "생중량(g)" ].

Definition plant (id : string) (leaves : Z) (shoot weight : Q) : list pyval :=
  [VStr id; VInt leaves; VFloat (Finite shoot); VFloat (Finite weight)].

Definition growth_sheet (plants : list (list pyval)) : DataFrame :=
  frame_of_lists plants growth_columns.

Definition workbook : list (string * DataFrame) :=
  [ ("송도고", growth_sheet [ plant "S1" 5 40 (4 # 1); plant "S2" 6 44 (6 # 1) ]);
    ("하늘고", growth_sheet [ plant "H1" 8 61 (92 # 10) ]);
    ("아라고", growth_sheet [ plant "A1" 4 35 (3 # 1); plant "A2" 4 37 (32 # 10) ]);
    ("동산고", growth_sheet [ plant "D1" 7 60 (9 # 1); plant "D2" 8 63 (94 # 10) ]) ].

Definition xlsx_file (stored_name : string) (sheets : list (string * DataFrame)) : file :=
  {| file_name := stored_name; csv_contents := not_a_csv; excel_contents := inr sheets |}.

(** All five files present; two names are stored decomposed. *)
Definition full_dir : directory :=
  [ csv_file (hangul_nfd "송도고_환경데이터.csv") songdo_env;
    xlsx_file (hangul_nfd "4개교_생육결과데이터.xlsx") workbook;
    csv_file "하늘고_환경데이터.csv" haneul_env;
    csv_file "아라고_환경데이터.csv" ara_env;
    csv_file "동산고_환경데이터.csv" dongsan_env ].

(** [full_dir] with the first environmental file removed. *)
Definition dir_without_songdo : directory := tail full_dir.

(** ... and with one of the remaining three holding a header only. *)
Definition dir_with_empty_file : directory :=
  [ xlsx_file (hangul_nfd "4개교_생육결과데이터.xlsx") workbook;
    csv_file "하늘고_환경데이터.csv" header_only;
    csv_file "아라고_환경데이터.csv" ara_env;
    csv_file "동산고_환경데이터.csv" dongsan_env ].

(** No environmental file at all. *)
Definition dir_without_env : directory :=
  [ xlsx_file "4개교_생육결과데이터.xlsx" workbook ].

(** A workbook with a sheet for a school the design table does not know. *)
Definition dir_with_unknown_school : directory :=
  [ csv_file "송도고_환경데이터.csv" songdo_env;
    xlsx_file "4개교_생육결과데이터.xlsx"
      [ ("송도고", growth_sheet [ plant "S1" 5 40 (4 # 1) ]);
        ("극지고", growth_sheet [ plant "P1" 5 40 (3 # 1) ]) ] ].

(** The first sheet has its header and no plant yet. *)
Definition dir_with_empty_sheet : directory :=
  [ csv_file "송도고_환경데이터.csv" songdo_env;
    xlsx_file "4개교_생육결과데이터.xlsx"
      [ ("송도고", growth_sheet []);
        ("하늘고", growth_sheet [ plant "H1" 8 61 (5 # 1) ]) ] ].

(** The workbook is missing; the environmental files are there. *)
Definition dir_without_workbook : directory :=
  [ csv_file "송도고_환경데이터.csv" songdo_env;
    csv_file (hangul_nfd "하늘고_환경데이터.csv") haneul_env;
    csv_file "아라고_환경데이터.csv" ara_env;
    csv_file "동산고_환경데이터.csv" dongsan_env ].

(** The workbook is there and cannot be opened. *)
Definition dir_with_corrupt_workbook : directory :=
  {| file_name := "4개교_생육결과데이터.xlsx";
     csv_contents := not_a_csv;
     excel_contents := not_a_workbook |} :: dir_without_workbook.

(** The workbook has a sheet of notes besides a sheet of plants. *)
Definition dir_with_notes_sheet : directory :=
  [ csv_file "송도고_환경데이터.csv" songdo_env;
    xlsx_file "4개교_생육결과데이터.xlsx"
      [ ("송도고", growth_sheet [ plant "S1" 5 40 (4 # 1) ]);
        ("메모", frame_of_lists [[VStr "5월 측정분"]] ["비고"]) ] ].

Definition empty_state : state := {| heap := []; page := [] |}.

(** The state and the two dictionaries after loading [full_dir]. *)
Definition loaded : outcome (addr * addr) * state :=
  load_all (H := libraries) full_dir empty_state.

Definition loaded_state : state := loaded.2.

(** what the two dictionaries hold in [loaded_state] *)
Definition env_dict : dict addr :=
  [ (VStr "송도고", 1); (VStr "하늘고", 2); (VStr "아라고", 3); (VStr "동산고", 4) ].

Definition growth_dict : dict addr :=
  [ (VStr "송도고", 6); (VStr "하늘고", 7); (VStr "아라고", 8); (VStr "동산고", 9) ].

Definition tagged (school : string) (t : DataFrame) : DataFrame :=
  frame_setitem "school" (VStr school) t.

Definition env_frames : list DataFrame :=
  [ tagged "송도고" songdo_env; tagged "하늘고" haneul_env;
    tagged "아라고" ara_env; tagged "동산고" dongsan_env ].


(** the mean fresh weights of [workbook]: 5.0, 9.2, 3.1 and 9.2 *)
Definition growth_means : dict pyfloat :=
  [ (VStr "송도고", Finite 5); (VStr "하늘고", Finite (46 # 5));
    (VStr "아라고", Finite (31 # 10)); (VStr "동산고", Finite (46 # 5)) ].

(** The script up to the barrier, on the other sample directories. *)
Definition started_without_env : outcome (addr * addr) * state :=
  startup (H := libraries) dir_without_env empty_state.

Definition started_without_songdo : outcome (addr * addr) * state :=
  startup (H := libraries) dir_without_songdo empty_state.

Definition started_unknown_school : outcome (addr * addr) * state :=
  startup (H := libraries) dir_with_unknown_school empty_state.

Definition started_empty_sheet : outcome (addr * addr) * state :=
  startup (H := libraries) dir_with_empty_sheet empty_state.

Definition started_notes_sheet : outcome (addr * addr) * state :=
  startup (H := libraries) dir_with_notes_sheet empty_state.

End Sample.

(* ===================================================================== *)
(** ** Vocabulary of the statements *)
(* ===================================================================== *)

(** [s'] is [s] with new objects added: every object of [s], dictionary
    or table, is still there and unchanged, and the page is the same. *)
Definition extends (s s' : state) : Prop :=
  page s' = page s ∧ ∃ new, heap s' = heap s ++ new.

(** A computation that, however it ends, leaves every existing object
    and the page as they were. *)
Definition only_allocates {A} (c : M A) : Prop :=
  ∀ s, extends s (c s).2.

(** The address [a] returned from state [s] to state [s'] is that of a
    table object created in between. *)
Definition fresh_table (s s' : state) (a : addr) : Prop :=
  heap s !! a = None ∧ ∃ t, heap s' !! a = Some (OFrame t).

(** The tables a dictionary refers to, in its iteration order. *)
Definition tables_of (s : state) (d : dict addr) (ts : list DataFrame) : Prop :=
  Forall2 (λ item t, heap s !! item.2 = Some (OFrame t)) d ts.

(** The object at [a] is a dictionary with distinct keys whose values
    all refer to tables. *)
Definition tables_dict (s : state) (a : addr) : Prop :=
  ∃ d ts, heap s !! a = Some (ODict d) ∧ NoDup (dict_keys d) ∧ tables_of s d ts.


(** A computation that ends with [st.stop()] or an exception returns
    nothing. *)
Definition returns {A} (o : outcome A) : Prop := ∃ a, o = Return a.

(** A computation that never ends with [st.stop()]. *)
Definition never_halts {A} (c : M A) : Prop := ∀ s, (c s).1 ≠ Halt.


(** The table a loader stores for [school]: [t] with the tag column set. *)
Definition tagged_table (school : string) (t : DataFrame) : DataFrame :=
  frame_setitem "school" (VStr school) t.

(** The four means of one environmental table, as line 206-209 take them. *)
Record env_means := mkMeans {
  mean_temperature : pyfloat;
  mean_humidity : pyfloat;
  mean_ph : pyfloat;
  mean_ec : pyfloat
}.

Section LoaderVocabulary.
Context `{Libraries}.

Definition resolved (DATA_DIR : directory) (name : string) : bool :=
  match find_file_safe DATA_DIR name with
  | Some _ => true
  | None => false
  end.

(** Every target that resolves is a file that parses to at least one row. *)
Definition loadable (DATA_DIR : directory) (names : list string) : Prop :=
  ∀ name file, name ∈ names → find_file_safe DATA_DIR name = Some file →
    ∃ t, csv_contents file = inr t ∧ rows t ≠ [].

(** The sources whose files resolve and parse, each with its tagged
    table, in target order. *)
Definition env_tables (DATA_DIR : directory) (names : list string)
    : list (pyval * DataFrame) :=
  flat_map (λ name,
    match find_file_safe DATA_DIR name with
    | Some file =>
        match csv_contents file with
        | inr t =>
            let school := VStr (split_head "_" name) in
            [(school, frame_setitem "school" school t)]
        | inl _ => []
        end
    | None => []
    end) names.

(** One warning per target that does not resolve, in target order. *)
Definition env_warnings (DATA_DIR : directory) (names : list string) : list element :=
  map (λ name, st_error (env_missing_message name))
    (List.filter (λ name, negb (resolved DATA_DIR name)) names).

End LoaderVocabulary.

Section AggregationVocabulary.
Context `{Libraries}.

(** The table has the column [col], and pandas averages it to [m]. *)
Definition column_has_mean (t : DataFrame) (col : string) (m : pyfloat) : Prop :=
  col ∈ columns t ∧ Series_mean (map (cell col) (rows t)) = inr m.

(** The four columns of an environmental table average to [m]. *)
Definition table_means (t : DataFrame) (m : env_means) : Prop :=
  column_has_mean t "temperature" (mean_temperature m) ∧
  column_has_mean t "humidity" (mean_humidity m) ∧
  column_has_mean t "ph" (mean_ph m) ∧
  column_has_mean t "ec" (mean_ec m).

(** The row of the averages table for one school (lines 204-211). *)
Definition avg_row (school : pyval) (m : env_means) : list pyval :=
  [ school; VFloat (mean_temperature m); VFloat (mean_humidity m);
    VFloat (mean_ph m); VFloat (mean_ec m); dict_get_or_None school EC_MAP ].

End AggregationVocabulary.

(** The means of the four environmental tables of [Sample.full_dir], and
    the columns those tables have once loaded. *)
Definition sample_env_means : list env_means :=
  [ mkMeans (Finite 23) (Finite 56) (Finite (31 # 5)) (Finite 1);
    mkMeans (Finite 21) (Finite 60) (Finite 6) (Finite 2);
    mkMeans (Finite 23) (Finite 60) (Finite 6) (Finite 4);
    mkMeans (Finite 20) (Finite 50) (Finite (13 # 2)) (Finite 8) ].


(* ===================================================================== *)
(** * Properties *)
(* ===================================================================== *)

(** ** Order of floats *)

Lemma finite_lt_iff (a b : Q) :
  float_lt (Finite a) (Finite b) = true ↔ (a < b)%Q.
Proof. unfold float_lt, Qlt. apply Z.ltb_lt. Qed.

Lemma float_lt_trans (x y z : pyfloat) :
  float_lt x y = true → float_lt y z = true → float_lt x z = true.
Proof.
  destruct x as [a|[]|], y as [b|[]|], z as [c|[]|]; try (simpl; congruence).
  rewrite !finite_lt_iff. apply Qlt_trans.
Qed.

(** Among numbers, [y < x] and [z] not above [y] put [z] below [x]. *)
Lemma float_lt_not_lt (x y z : pyfloat) :
  is_nan z = false →
  float_lt y x = true → float_lt y z = false → float_lt z x = true.
Proof.
  destruct x as [a|[]|], y as [b|[]|], z as [c|[]|]; try (simpl; congruence).
  intros _. rewrite !finite_lt_iff. intros Hba Hbc.
  apply Qle_lt_trans with b; [|done].
  apply Qnot_lt_le. intros Hlt. apply finite_lt_iff in Hlt. congruence.
Qed.

Lemma float_le_of_not_gt (x y : pyfloat) :
  is_nan x = false → is_nan y = false →
  float_gt x y = false → float_le x y = true.
Proof.
  unfold float_gt, float_le. intros Hx Hy Hgt.
  destruct x, y; simpl in *; try congruence; by rewrite Hgt.
Qed.

(** ** Dictionaries *)

Section DictFacts.
Context {V : Type}.
Implicit Types (d : dict V) (k : pyval) (v : V).

Lemma dict_get_elem_of d k v :
  NoDup (dict_keys d) → (k, v) ∈ d → dict_get k d = Some v.
Proof.
  induction d as [|[k' v'] d IH]; simpl; intros Hnd Hin.
  - by apply elem_of_nil in Hin.
  - apply NoDup_cons in Hnd as [Hk' Hnd].
    apply elem_of_cons in Hin as [Heq|Hin].
    + inversion Heq; subst. by rewrite decide_True.
    + rewrite decide_False; [by apply IH|].
      intros ->. apply Hk'. apply list_elem_of_fmap. by exists (k', v).
Qed.

Lemma dict_get_None d k : k ∉ dict_keys d → dict_get k d = None.
Proof.
  induction d as [|[k' v'] d IH]; simpl; [done|].
  intros Hk. apply not_elem_of_cons in Hk as [Hne Hk].
  rewrite decide_False; auto.
Qed.

(** Assigning to a key that is not there yet appends it. *)
Lemma dict_set_fresh d k v : k ∉ dict_keys d → dict_set k v d = d ++ [(k, v)].
Proof.
  induction d as [|[k' v'] d IH]; simpl; [done|].
  intros Hk. apply not_elem_of_cons in Hk as [Hne Hk].
  rewrite decide_False; [|done]. by rewrite IH.
Qed.

Lemma dict_keys_app d1 d2 : dict_keys (d1 ++ d2) = dict_keys d1 ++ dict_keys d2.
Proof. apply map_app. Qed.

End DictFacts.

(** ** The builtin [max] *)

Section MaxFacts.
Context {A B : Type} (gt : B → B → bool) (key : A → B) (ok : B → Prop).
Hypothesis gt_trans : ∀ x y z, gt x y = true → gt y z = true → gt x z = true.
Hypothesis gt_not_gt : ∀ x y z,
  ok z → gt x y = true → gt z y = false → gt x z = true.

(** [max_from] returns the first item that no item exceeds: everything
    before it is strictly smaller, nothing after it is greater. *)
Lemma max_from_first_maximum (l : list A) (cur : A) :
  Forall (λ a, ok (key a)) l →
  ∃ pre m post,
    cur :: l = pre ++ m :: post ∧
    max_from gt key cur (key cur) l = m ∧
    (∀ a, a ∈ pre → gt (key m) (key a) = true) ∧
    (∀ a, a ∈ post → gt (key a) (key m) = false).
Proof.
  revert cur. induction l as [|item l IH]; intros cur Hok.
  - exists [], cur, []. repeat split; intros a Ha; by apply elem_of_nil in Ha.
  - apply Forall_cons in Hok as [Hitem Hok]. simpl.
    destruct (gt (key item) (key cur)) eqn:Hgt.
    + destruct (IH item Hok) as (pre & m & post & Heq & Hmax & Hpre & Hpost).
      exists (cur :: pre), m, post. rewrite Heq. repeat split; [done| |done].
      intros a Ha. apply elem_of_cons in Ha as [->|Ha]; [|by apply Hpre].
      destruct pre as [|p pre]; simpl in Heq; injection Heq as -> ->; [done|].
      apply gt_trans with (key p); [|done]. apply Hpre. by left.
    + destruct (IH cur Hok) as (pre & m & post & Heq & Hmax & Hpre & Hpost).
      destruct pre as [|p pre]; simpl in Heq; injection Heq as -> ->.
      * exists [], m, (item :: post). repeat split; [done| |].
        -- intros a Ha. by apply elem_of_nil in Ha.
        -- intros a Ha. apply elem_of_cons in Ha as [->|Ha]; [done|by apply Hpost].
      * exists (p :: item :: pre), m, post. repeat split; [done| |done].
        intros a Ha. apply elem_of_cons in Ha as [->|Ha]; [apply Hpre; by left|].
        apply elem_of_cons in Ha as [->|Ha]; [|apply Hpre; by right].
        apply gt_not_gt with (key p); [done| |done]. apply Hpre. by left.
Qed.

End MaxFacts.

(** ** Filename resolver *)

Section Resolver.
Context `{Libraries}.

Lemma find_file_loop_list_find (entries : list file) (target_nfc : string) :
  find_file_loop entries target_nfc =
  snd <$> list_find (λ f, normalize_name (file_name f) = target_nfc) entries.
Proof.
  induction entries as [|f entries IH]; simpl; [done|].
  case_decide; [done|]. rewrite IH.
  by destruct (list_find _ entries) as [[i x]|].
Qed.

(** X1. The not-found signal means exactly that no entry of the
    directory has the target's NFC name. *)
Lemma find_file_safe_None (directory : directory) (target_name : string) :
  find_file_safe directory target_name = None ↔
  ∀ entry, entry ∈ directory →
    normalize_name (file_name entry) ≠ normalize_name target_name.
Proof.
  unfold find_file_safe. rewrite find_file_loop_list_find.
  rewrite fmap_None, list_find_None, Forall_forall. done.
Qed.


End Resolver.


(** ** The run-time *)

Lemma extends_refl (s : state) : extends s s.
Proof. split; [done|]. exists []. by rewrite app_nil_r. Qed.

Lemma extends_trans (s1 s2 s3 : state) :
  extends s1 s2 → extends s2 s3 → extends s1 s3.
Proof.
  intros [Hp1 [n1 Hh1]] [Hp2 [n2 Hh2]]. split; [congruence|].
  exists (n1 ++ n2). by rewrite Hh2, Hh1, app_assoc.
Qed.

Lemma extends_lookup (s s' : state) (a : addr) (o : obj) :
  extends s s' → heap s !! a = Some o → heap s' !! a = Some o.
Proof. intros [_ [new ->]] Ha. by apply lookup_app_l_Some. Qed.

Lemma extends_length (s s' : state) :
  extends s s' → length (heap s) ≤ length (heap s').
Proof. intros [_ [new ->]]. rewrite length_app. lia. Qed.

Lemma bind_Return {A B} (c : M A) (k : A → M B) (s s1 : state) (a : A) :
  c s = (Return a, s1) → bind c k s = k a s1.
Proof. unfold bind. by intros ->. Qed.

Lemma bind_Raise {A B} (c : M A) (k : A → M B) (s s1 : state) (e : exn) :
  c s = (Raise e, s1) → bind c k s = (Raise e, s1).
Proof. unfold bind. by intros ->. Qed.

Lemma bind_Halt {A B} (c : M A) (k : A → M B) (s s1 : state) :
  c s = (Halt, s1) → bind c k s = (Halt, s1).
Proof. unfold bind. by intros ->. Qed.

Lemma load_dict_run (a : addr) (d : dict addr) (s : state) :
  heap s !! a = Some (ODict d) → load_dict a s = (Return d, s).
Proof. intros Ha. unfold load_dict, bind, load. by rewrite Ha. Qed.

Lemma load_frame_run (a : addr) (t : DataFrame) (s : state) :
  heap s !! a = Some (OFrame t) → load_frame a s = (Return t, s).
Proof. intros Ha. unfold load_frame, bind, load. by rewrite Ha. Qed.


(** *** Computations that only allocate *)

Create HintDb frame.

Lemma only_allocates_ret {A} (a : A) : only_allocates (ret a).
Proof. intros s. apply extends_refl. Qed.

Lemma only_allocates_raise {A} (e : exn) : only_allocates (raise (A := A) e).
Proof. intros s. apply extends_refl. Qed.

Lemma only_allocates_lift {A} (r : exn + A) : only_allocates (lift r).
Proof. destruct r; intros s; apply extends_refl. Qed.

Lemma only_allocates_alloc (o : obj) : only_allocates (alloc o).
Proof. intros s. split; [done|]. by exists [o]. Qed.

Lemma only_allocates_load (a : addr) : only_allocates (load a).
Proof. intros s. unfold load. destruct (heap s !! a); apply extends_refl. Qed.

Lemma only_allocates_bind {A B} (c : M A) (k : A → M B) :
  only_allocates c → (∀ a, only_allocates (k a)) → only_allocates (bind c k).
Proof.
  intros Hc Hk s. unfold bind. specialize (Hc s).
  destruct (c s) as [[a|e|] s1]; simpl in *; try done.
  eapply extends_trans; [done|]. apply Hk.
Qed.

#[local] Hint Resolve only_allocates_ret only_allocates_raise only_allocates_lift
  only_allocates_alloc only_allocates_load : frame.

Ltac frame_step :=
  first
    [ apply only_allocates_bind; [|intros ?]
    | match goal with
      | |- only_allocates (match ?x with _ => _ end) => destruct x
      | |- only_allocates (if ?b then _ else _) => destruct b
      end
    | solve [eauto with frame] ].

Ltac frame := repeat frame_step.

Lemma only_allocates_load_frame (a : addr) : only_allocates (load_frame a).
Proof. unfold load_frame. frame. Qed.

Lemma only_allocates_load_dict (a : addr) : only_allocates (load_dict a).
Proof. unfold load_dict. frame. Qed.

#[local] Hint Resolve only_allocates_load_frame only_allocates_load_dict : frame.

Lemma only_allocates_load_frames (l : list addr) : only_allocates (load_frames l).
Proof. induction l; simpl; frame. Qed.

#[local] Hint Resolve only_allocates_load_frames : frame.

Lemma only_allocates_df_len (df : addr) : only_allocates (df_len df).
Proof. unfold df_len. frame. Qed.

Lemma only_allocates_df_getitem (df : addr) (col : string) :
  only_allocates (df_getitem df col).
Proof. unfold df_getitem. frame. Qed.

Lemma only_allocates_pd_DataFrame (data : list (list pyval)) (cols : list string) :
  only_allocates (pd_DataFrame data cols).
Proof. unfold pd_DataFrame. frame. Qed.

Lemma only_allocates_pd_concat (tables : list addr) : only_allocates (pd_concat tables).
Proof. unfold pd_concat. frame. Qed.

Lemma only_allocates_dict_getitem {V} (k : pyval) (d : dict V) :
  only_allocates (dict_getitem k d).
Proof. unfold dict_getitem. frame. Qed.

#[local] Hint Resolve only_allocates_df_len only_allocates_df_getitem
  only_allocates_pd_DataFrame only_allocates_pd_concat
  only_allocates_dict_getitem : frame.

Lemma bind_inv_Return {A B} (c : M A) (k : A → M B) (s s' : state) (b : B) :
  bind c k s = (Return b, s') →
  ∃ a s1, c s = (Return a, s1) ∧ k a s1 = (Return b, s').
Proof.
  unfold bind. destruct (c s) as [[a|e|] s1]; [eauto|done|done].
Qed.

Lemma alloc_fresh_table (t : DataFrame) (s s' : state) (a : addr) :
  alloc (OFrame t) s = (Return a, s') →
  fresh_table s s' a ∧ heap s' = heap s ++ [OFrame t] ∧ a = length (heap s).
Proof.
  unfold alloc. intros [= <- <-]. repeat split; simpl.
  - by apply lookup_ge_None.
  - exists t. by rewrite lookup_app_r, Nat.sub_diag.
Qed.

Lemma fresh_table_weaken (s0 s s' : state) (a : addr) :
  extends s0 s → fresh_table s s' a → fresh_table s0 s' a.
Proof.
  intros Hext [Hnone Hsome]. split; [|done].
  apply lookup_ge_None. apply lookup_ge_None in Hnone.
  apply extends_length in Hext. lia.
Qed.

(** ** Aggregation *)

Section Aggregation.
Context `{Libraries}.

Lemma only_allocates_column_mean (df : addr) (col : string) :
  only_allocates (column_mean df col).
Proof. unfold column_mean. frame. Qed.

#[local] Hint Resolve only_allocates_column_mean : frame.

Lemma only_allocates_concat_values (d : addr) : only_allocates (concat_values d).
Proof. unfold concat_values. frame. Qed.

#[local] Hint Resolve only_allocates_concat_values : frame.

Lemma only_allocates_overall_mean (env_data : addr) (col : string) :
  only_allocates (overall_mean env_data col).
Proof. unfold overall_mean. frame. Qed.

Lemma only_allocates_overview_loop (items : list (pyval * addr))
    (rows : list (list pyval)) (total : Z) :
  only_allocates (overview_loop items rows total).
Proof.
  revert rows total. induction items as [|[school df] items IH]; intros; simpl; frame.
Qed.

#[local] Hint Resolve only_allocates_overview_loop : frame.

Lemma only_allocates_overview (growth_data : addr) :
  only_allocates (overview growth_data).
Proof. unfold overview. frame. Qed.

Lemma only_allocates_weight_means_loop (items : list (pyval * addr)) (acc : dict pyfloat) :
  only_allocates (weight_means_loop items acc).
Proof.
  revert acc. induction items as [|[school df] items IH]; intros; simpl; frame.
Qed.

#[local] Hint Resolve only_allocates_weight_means_loop : frame.

Lemma only_allocates_weight_means (growth_data : addr) :
  only_allocates (weight_means growth_data).
Proof. unfold weight_means. frame. Qed.

Lemma only_allocates_avg_rows_loop (env_data : addr) (schools : list pyval)
    (avg_rows : list (list pyval)) :
  only_allocates (avg_rows_loop env_data schools avg_rows).
Proof.
  revert avg_rows. induction schools as [|school schools IH]; intros; simpl; frame.
Qed.

#[local] Hint Resolve only_allocates_avg_rows_loop : frame.

Lemma only_allocates_environment_averages (env_data : addr) (selected : list pyval) :
  only_allocates (environment_averages env_data selected).
Proof. unfold environment_averages. frame. Qed.

Lemma only_allocates_ec_weight_loop (items : list (pyval * addr))
    (ec_weight : list (list pyval)) :
  only_allocates (ec_weight_loop items ec_weight).
Proof.
  revert ec_weight. induction items as [|[school df] items IH]; intros; simpl; frame.
Qed.

#[local] Hint Resolve only_allocates_ec_weight_loop : frame.

Lemma only_allocates_weight_by_source (growth_data : addr) :
  only_allocates (weight_by_source growth_data).
Proof. unfold weight_by_source. frame. Qed.

(** A step that ends by building a table returns a new object. *)
Lemma fresh_after {A B} (c : M A) (data : A → list (list pyval)) (cols : list string)
    (pack : A → addr → B) (s s' : state) (b : B) :
  only_allocates c →
  (a <- c ;; df <- pd_DataFrame (data a) cols ;; ret (pack a df)) s = (Return b, s') →
  ∃ a df, b = pack a df ∧ fresh_table s s' df.
Proof.
  intros Hc Hrun.
  apply bind_inv_Return in Hrun as (a & s1 & Ha & Hrun).
  apply bind_inv_Return in Hrun as (df & s2 & Hdf & Hret).
  injection Hret as <- <-. exists a, df. split; [done|].
  apply alloc_fresh_table in Hdf as [Hfresh _].
  eapply fresh_table_weaken; [|done]. specialize (Hc s). by rewrite Ha in Hc.
Qed.

Lemma concat_values_fresh (d : addr) (s s' : state) (a : addr) :
  concat_values d s = (Return a, s') → fresh_table s s' a.
Proof.
  unfold concat_values, pd_concat. intros Hrun.
  apply bind_inv_Return in Hrun as (items & s1 & Hitems & Hrun).
  apply bind_inv_Return in Hrun as (ts & s2 & Hts & Hrun).
  apply bind_inv_Return in Hrun as (t & s3 & Ht & Hrun).
  apply alloc_fresh_table in Hrun as [Hfresh _].
  eapply fresh_table_weaken; [|done].
  pose proof (only_allocates_load_dict d s) as H1. rewrite Hitems in H1.
  pose proof (only_allocates_load_frames (dict_values items) s1) as H2. rewrite Hts in H2.
  pose proof (only_allocates_lift (frame_concat ts) s2) as H3. rewrite Ht in H3.
  eauto using extends_trans.
Qed.

(** C9. Each aggregation step, however it ends, leaves every object that
    existed before it as it was: the two dictionaries [env_data] and
    [growth_data] and every table they refer to; and the table a step
    returns is a new object. *)
Theorem aggregation_leaves_raw_data_unchanged
    (env_data growth_data : addr) (selected : list pyval) (s : state) :
  (extends s (overview growth_data s).2 ∧
   extends s (environment_averages env_data selected s).2 ∧
   extends s (weight_by_source growth_data s).2 ∧
   extends s (weight_means growth_data s).2 ∧
   extends s (concat_values env_data s).2 ∧
   extends s (concat_values growth_data s).2) ∧
  (∀ r df s', overview growth_data s = (Return (r, df), s') → fresh_table s s' df) ∧
  (∀ r df s', environment_averages env_data selected s = (Return (r, df), s') →
     fresh_table s s' df) ∧
  (∀ r df s', weight_by_source growth_data s = (Return (r, df), s') →
     fresh_table s s' df) ∧
  (∀ d df s', d ∈ [env_data; growth_data] →
     concat_values d s = (Return df, s') → fresh_table s s' df).
Proof.
  split; [|split; [|split; [|split]]].
  - split_and!.
    + apply only_allocates_overview.
    + apply only_allocates_environment_averages.
    + apply only_allocates_weight_by_source.
    + apply only_allocates_weight_means.
    + apply only_allocates_concat_values.
    + apply only_allocates_concat_values.
  - intros r df s' Hrun. unfold overview in Hrun.
    apply bind_inv_Return in Hrun as (g & s1 & Hg & Hrun).
    eapply (fresh_after _ fst overview_columns pair) in Hrun as (a & df' & [= <- <-] & Hfresh);
      [|apply only_allocates_overview_loop].
    eapply fresh_table_weaken; [|done].
    pose proof (only_allocates_load_dict growth_data s) as H1. by rewrite Hg in H1.
  - intros r df s' Hrun. unfold environment_averages in Hrun.
    eapply (fresh_after _ id avg_columns pair) in Hrun as (a & df' & [= <- <-] & Hfresh);
      [done|apply only_allocates_avg_rows_loop].
  - intros r df s' Hrun. unfold weight_by_source in Hrun.
    apply bind_inv_Return in Hrun as (g & s1 & Hg & Hrun).
    eapply (fresh_after _ id ec_columns pair) in Hrun as (a & df' & [= <- <-] & Hfresh);
      [|apply only_allocates_ec_weight_loop].
    eapply fresh_table_weaken; [|done].
    pose proof (only_allocates_load_dict growth_data s) as H1. by rewrite Hg in H1.
  - intros d df s' _. apply concat_values_fresh.
Qed.

(** *** Overview *)



(** *** Concatenation *)







(** *** The optimal condition *)

Lemma column_mean_state (df : addr) (col : string) (s : state) :
  (column_mean df col s).2 = s.
Proof.
  unfold column_mean, df_getitem, load_frame, load, bind, lift, ret, raise.
  destruct (heap s !! df) as [[d|t]|]; simpl; try done.
  destruct (frame_getitem col t) as [e|ser]; simpl; [done|].
  by destruct (Series_mean ser).
Qed.

Lemma weight_means_loop_run (s s' : state) (items : list (pyval * addr))
    (acc wm : dict pyfloat) :
  NoDup (dict_keys acc ++ dict_keys items) →
  weight_means_loop items acc s = (Return wm, s') →
  s' = s ∧
  ∃ means,
    wm = acc ++ zip (dict_keys items) means ∧
    Forall2 (λ item mean, column_mean item.2 "생중량(g)" s = (Return mean, s))
      items means.
Proof.
  revert acc. induction items as [|[school df] items IH]; intros acc Hnd Hrun; simpl in *.
  - injection Hrun as <- <-. split; [done|]. exists []. by rewrite app_nil_r.
  - apply bind_inv_Return in Hrun as (m & s1 & Hm & Hrun).
    assert (s1 = s) as -> by (pose proof (column_mean_state df "생중량(g)" s) as E;
                              by rewrite Hm in E).
    rewrite dict_set_fresh in Hrun.
    2:{ apply NoDup_app in Hnd as (_ & Hdisj & _). intros Hin.
        apply (Hdisj school Hin). by left. }
    apply IH in Hrun as (-> & means & -> & Hmeans).
    2:{ rewrite dict_keys_app. simpl. by rewrite <- app_assoc. }
    split; [done|]. exists (m :: means). split; [by rewrite <- app_assoc|].
    by constructor.
Qed.

Lemma mean_gt_trans (x y z : option pyfloat) :
  mean_gt x y = true → mean_gt y z = true → mean_gt x z = true.
Proof.
  destruct x as [a|], y as [b|], z as [c|]; simpl; try done.
  unfold float_gt. eauto using float_lt_trans.
Qed.

Lemma mean_gt_not_gt (x y z : option pyfloat) :
  (∃ c, z = Some c ∧ is_nan c = false) →
  mean_gt x y = true → mean_gt z y = false → mean_gt x z = true.
Proof.
  intros (c & -> & Hc). destruct x as [a|], y as [b|]; simpl; try done.
  unfold float_gt. eauto using float_lt_not_lt.
Qed.

(** [max] over a dictionary of means without NaN picks the first key
    whose mean no other mean exceeds. *)
Lemma optimal_school_spec (wm : dict pyfloat) :
  NoDup (dict_keys wm) →
  wm ≠ [] →
  Forall (λ item, is_nan item.2 = false) wm →
  ∃ before school mean after,
    wm = before ++ (school, mean) :: after ∧
    optimal_school wm = inr school ∧
    (∀ item, item ∈ before → float_lt item.2 mean = true) ∧
    (∀ item, item ∈ after → float_le item.2 mean = true).
Proof.
  intros Hnd Hne Hnan. unfold optimal_school.
  destruct wm as [|[k0 v0] wm0] eqn:Hwm; [done|]. rewrite <- Hwm in *.
  assert (Hkey : ∀ item, item ∈ wm → dict_get item.1 wm = Some item.2).
  { intros [k v] Hin. by apply dict_get_elem_of. }
  assert (Hkeys : dict_keys wm = k0 :: dict_keys wm0) by by rewrite Hwm.
  rewrite Hkeys. simpl.
  destruct (max_from_first_maximum mean_gt (λ school, dict_get school wm)
              (λ b, ∃ c, b = Some c ∧ is_nan c = false)
              mean_gt_trans mean_gt_not_gt (dict_keys wm0) k0)
    as (pre & m & post & Heq & Hmax & Hpre & Hpost).
  { apply Forall_forall. intros k Hk.
    assert (k ∈ dict_keys wm) as Hk' by (rewrite Hkeys; by right).
    apply list_elem_of_fmap in Hk' as ([k' v] & -> & Hin).
    exists v. split; [by apply (Hkey (k', v))|].
    rewrite Forall_forall in Hnan. by apply (Hnan (k', v)). }
  rewrite <- Hkeys in Heq. unfold dict_keys in Heq.
  apply fmap_app_inv in Heq as (before & rest & -> & Hrest & Hsplit).
  symmetry in Hrest. apply fmap_cons_inv in Hrest as ([school mean] & after & Hm & -> & ->).
  simpl in *. subst school. rewrite Hmax.
  exists before, m, mean, after.
  assert (Hmean : dict_get m wm = Some mean).
  { apply (Hkey (_, mean)). rewrite Hsplit. apply elem_of_app. right. by left. }
  split_and!; try done.
  - intros [k v] Hin. simpl.
    assert (Hv : dict_get k wm = Some v).
    { apply (Hkey (k, v)). rewrite Hsplit. apply elem_of_app. by left. }
    specialize (Hpre k). rewrite Hmean, Hv in Hpre. apply Hpre.
    apply list_elem_of_fmap. by exists (k, v).
  - intros [k v] Hin. simpl.
    assert (Hin' : (k, v) ∈ wm).
    { rewrite Hsplit. apply elem_of_app. right. by right. }
    assert (Hv : dict_get k wm = Some v) by apply (Hkey (k, v) Hin').
    specialize (Hpost k). rewrite Hmean, Hv in Hpost.
    rewrite Forall_forall in Hnan.
    apply float_le_of_not_gt.
    + apply (Hnan (k, v) Hin').
    + apply (Hnan (m, mean)). rewrite Hsplit. apply elem_of_app. right. by left.
    + apply Hpost. apply list_elem_of_fmap. by exists (k, v).
Qed.

(** C2, as amended. The means are computed per source of the growth
    mapping, in its iteration order; when none of them is NaN, the
    optimal school is the first source whose mean is the maximum: every
    earlier source has a strictly smaller mean, every later one a mean
    that is not greater. *)
Theorem optimal_school_first_maximum (s s' : state) (growth_data : addr)
    (g : dict addr) (wm : dict pyfloat) :
  heap s !! growth_data = Some (ODict g) →
  NoDup (dict_keys g) →
  g ≠ [] →
  weight_means growth_data s = (Return wm, s') →
  Forall (λ item, is_nan item.2 = false) wm →
  dict_keys wm = dict_keys g ∧
  Forall2 (λ item mean, column_mean item.2 "생중량(g)" s = (Return mean, s))
    g (dict_values wm) ∧
  ∃ before school mean after,
    wm = before ++ (school, mean) :: after ∧
    optimal_school wm = inr school ∧
    (∀ item, item ∈ before → float_lt item.2 mean = true) ∧
    (∀ item, item ∈ after → float_le item.2 mean = true).
Proof.
  intros Hg Hnd Hne Hrun Hnan. unfold weight_means in Hrun.
  rewrite (bind_Return _ _ _ _ _ (load_dict_run _ _ _ Hg)) in Hrun.
  apply weight_means_loop_run in Hrun as (-> & means & -> & Hmeans); [|done].
  simpl in *.
  assert (Hlen : length (dict_keys g) = length means).
  { unfold dict_keys. rewrite length_map. by apply Forall2_length in Hmeans. }
  assert (Hkeys : dict_keys (zip (dict_keys g) means) = dict_keys g).
  { unfold dict_keys at 1. apply fst_zip. lia. }
  assert (Hvalues : dict_values (zip (dict_keys g) means) = means).
  { unfold dict_values. apply snd_zip. lia. }
  split_and!; [done|by rewrite Hvalues|].
  apply optimal_school_spec; [by rewrite Hkeys| |done].
  destruct g as [|[k a] g]; [done|]. destruct means; [done|]. done.
Qed.

End Aggregation.

(** ** Loaders *)

Lemma df_setitem_run (df : addr) (col : string) (v : pyval) (t : DataFrame) (s : state) :
  heap s !! df = Some (OFrame t) →
  df_setitem df col v s =
  (Return tt, {| heap := <[df := OFrame (frame_setitem col v t)]> (heap s);
                 page := page s |}).
Proof.
  intros Hdf. unfold df_setitem.
  by rewrite (bind_Return _ _ _ _ _ (load_frame_run _ _ _ Hdf)).
Qed.

Lemma df_getitem_run (df : addr) (col : string) (t : DataFrame) (s : state) :
  heap s !! df = Some (OFrame t) →
  df_getitem df col s = lift (frame_getitem col t) s.
Proof.
  intros Hdf. unfold df_getitem.
  by rewrite (bind_Return _ _ _ _ _ (load_frame_run _ _ _ Hdf)).
Qed.

Lemma dict_setitem_run (d : addr) (k : pyval) (v : addr) (items : dict addr) (s : state) :
  heap s !! d = Some (ODict items) →
  dict_setitem d k v s =
  (Return tt, {| heap := <[d := ODict (dict_set k v items)]> (heap s);
                 page := page s |}).
Proof.
  intros Hd. unfold dict_setitem.
  by rewrite (bind_Return _ _ _ _ _ (load_dict_run _ _ _ Hd)).
Qed.

Lemma cell_set_cell (c : string) (v : pyval) (r : row) : cell c (set_cell c v r) = v.
Proof.
  induction r as [|[c' v'] r IH]; simpl.
  - by rewrite decide_True.
  - case_decide as Heq; simpl; [by rewrite decide_True|by rewrite decide_False].
Qed.

(** After [df[col] = v] the column [col] holds [v] in every record. *)
Lemma frame_getitem_setitem (col : string) (v : pyval) (t : DataFrame) :
  frame_getitem col (frame_setitem col v t) = inr (map (λ _, v) (rows t)).
Proof.
  unfold frame_getitem, frame_setitem. simpl.
  rewrite decide_True.
  - f_equal. rewrite map_map. apply map_ext. intros r. apply cell_set_cell.
  - case_decide; [done|]. apply elem_of_app. right. by left.
Qed.

Lemma lookup_snoc_new {A} (l : list A) (x : A) : (l ++ [x]) !! length l = Some x.
Proof. by rewrite lookup_app_r, Nat.sub_diag. Qed.

Lemma insert_snoc_new {A} (l : list A) (x y : A) :
  <[length l := y]> (l ++ [x]) = l ++ [y].
Proof.
  replace (length l) with (length l + 0) at 1 by lia. by rewrite insert_app_r.
Qed.

Section Loaders.
Context `{Libraries}.

(** One turn of the loop for a target whose file is missing. *)
Lemma load_environment_loop_missing (DATA_DIR : directory) (env_data : addr)
    (name : string) (rest : list string) (s : state) :
  find_file_safe DATA_DIR name = None →
  load_environment_loop DATA_DIR env_data (name :: rest) s =
  load_environment_loop DATA_DIR env_data rest
    {| heap := heap s; page := page s ++ [st_error (env_missing_message name)] |}.
Proof. intros Hfind. simpl. by rewrite Hfind. Qed.

(** The turn up to [df["school"].iloc[0]], for a file that parses. *)
Lemma load_environment_loop_parsed (DATA_DIR : directory) (env_data : addr)
    (name : string) (rest : list string) (file : file) (t : DataFrame) (s : state) :
  find_file_safe DATA_DIR name = Some file →
  csv_contents file = inr t →
  load_environment_loop DATA_DIR env_data (name :: rest) s =
  (key <- lift (iloc0 (map (λ _, VStr (split_head "_" name)) (rows t))) ;;
   dict_setitem env_data key (length (heap s)) ;;
   load_environment_loop DATA_DIR env_data rest)
    {| heap := heap s ++ [OFrame (frame_setitem "school" (VStr (split_head "_" name)) t)];
       page := page s |}.
Proof.
  intros Hfind Hcsv. simpl. rewrite Hfind.
  assert (Hread : pd_read_csv file s =
            (Return (length (heap s)),
             {| heap := heap s ++ [OFrame t]; page := page s |})).
  { unfold pd_read_csv, bind. by rewrite Hcsv. }
  rewrite (bind_Return _ _ _ _ _ Hread).
  erewrite (bind_Return (df_setitem _ _ _)); [|apply df_setitem_run; apply lookup_snoc_new].
  cbn [heap page]. rewrite insert_snoc_new.
  erewrite (bind_Return (df_getitem _ _)); [done|].
  erewrite df_getitem_run; [|apply lookup_snoc_new].
  by rewrite frame_getitem_setitem.
Qed.

(** A file without rows: [iloc[0]] raises. *)
Lemma load_environment_loop_empty (DATA_DIR : directory) (env_data : addr)
    (name : string) (rest : list string) (file : file) (t : DataFrame) (s : state) :
  find_file_safe DATA_DIR name = Some file →
  csv_contents file = inr t →
  rows t = [] →
  (load_environment_loop DATA_DIR env_data (name :: rest) s).1 = Raise IndexError.
Proof.
  intros Hfind Hcsv Hrows.
  rewrite (load_environment_loop_parsed _ _ _ _ _ _ _ Hfind Hcsv). by rewrite Hrows.
Qed.

(** A file the reader rejects: its exception ends the load. *)
Lemma load_environment_loop_unreadable (DATA_DIR : directory) (env_data : addr)
    (name : string) (rest : list string) (file : file) (e : exn) (s : state) :
  find_file_safe DATA_DIR name = Some file →
  csv_contents file = inl e →
  (load_environment_loop DATA_DIR env_data (name :: rest) s).1 = Raise e.
Proof.
  intros Hfind Hcsv. simpl. rewrite Hfind. unfold pd_read_csv, bind. by rewrite Hcsv.
Qed.

(** The whole turn, for a file with at least one row. *)
Lemma load_environment_loop_found (DATA_DIR : directory) (env_data : addr)
    (name : string) (rest : list string) (file : file) (t : DataFrame)
    (d : dict addr) (s : state) :
  find_file_safe DATA_DIR name = Some file →
  csv_contents file = inr t →
  rows t ≠ [] →
  heap s !! env_data = Some (ODict d) →
  let school := VStr (split_head "_" name) in
  load_environment_loop DATA_DIR env_data (name :: rest) s =
  load_environment_loop DATA_DIR env_data rest
    {| heap := <[env_data := ODict (dict_set school (length (heap s)) d)]>
                 (heap s ++ [OFrame (frame_setitem "school" school t)]);
       page := page s |}.
Proof.
  intros Hfind Hcsv Hrows Hd school. subst school.
  rewrite (load_environment_loop_parsed _ _ _ _ _ _ _ Hfind Hcsv).
  set (s1 := {| heap := heap s ++ [OFrame (frame_setitem "school"
                                             (VStr (split_head "_" name)) t)];
                page := page s |}).
  assert (Hd1 : heap s1 !! env_data = Some (ODict d)) by by apply lookup_app_l_Some.
  destruct (rows t) as [|r rs]; [done|]. simpl.
  unfold bind at 1. simpl.
  by rewrite (bind_Return _ _ _ _ _
                (dict_setitem_run env_data (VStr (split_head "_" name))
                   (length (heap s)) d s1 Hd1)).
Qed.

Lemma env_tables_cons (DATA_DIR : directory) (name : string) (rest : list string) :
  env_tables DATA_DIR (name :: rest) =
  match find_file_safe DATA_DIR name with
  | Some file =>
      match csv_contents file with
      | inr t => [(VStr (split_head "_" name),
                   frame_setitem "school" (VStr (split_head "_" name)) t)]
      | inl _ => []
      end
  | None => []
  end ++ env_tables DATA_DIR rest.
Proof. done. Qed.

Lemma env_warnings_cons (DATA_DIR : directory) (name : string) (rest : list string) :
  env_warnings DATA_DIR (name :: rest) =
  (if resolved DATA_DIR name then [] else [st_error (env_missing_message name)])
  ++ env_warnings DATA_DIR rest.
Proof. unfold env_warnings. simpl. by destruct (resolved DATA_DIR name). Qed.

Lemma loadable_cons (DATA_DIR : directory) (name : string) (rest : list string) :
  loadable DATA_DIR (name :: rest) → loadable DATA_DIR rest.
Proof. intros Hok n f Hn. apply Hok. by right. Qed.

(** The loop over targets that are all missing or good: the mapping
    gains one entry per good target, the heap one table per entry, the
    page one warning per missing target. *)
Lemma load_environment_loop_ok (DATA_DIR : directory) (env_data : addr)
    (names : list string) (d : dict addr) (s : state) :
  heap s !! env_data = Some (ODict d) →
  loadable DATA_DIR names →
  NoDup (dict_keys d ++ map (λ name, VStr (split_head "_" name)) names) →
  load_environment_loop DATA_DIR env_data names s =
  (Return tt,
   {| heap :=
        <[env_data :=
            ODict (d ++ zip (map fst (env_tables DATA_DIR names))
                         (seq (length (heap s)) (length (env_tables DATA_DIR names))))]>
          (heap s ++ map (λ p, OFrame p.2) (env_tables DATA_DIR names));
      page := page s ++ env_warnings DATA_DIR names |}).
Proof.
  revert d s. induction names as [|name rest IH]; intros d s Hd Hok Hnd.
  - simpl. unfold ret. rewrite !app_nil_r, list_insert_id by done. by destruct s.
  - rewrite env_tables_cons, env_warnings_cons. unfold resolved.
    simpl in Hnd.
    assert (Hnd_rest : NoDup (dict_keys d ++ map (λ n, VStr (split_head "_" n)) rest)).
    { apply NoDup_app in Hnd as (Hd1 & Hdisj & Hd2). apply NoDup_cons in Hd2 as [_ Hd2].
      apply NoDup_app. split_and!; [done| |done].
      intros k Hk Hk'. apply (Hdisj k Hk). by right. }
    destruct (find_file_safe DATA_DIR name) as [file|] eqn:Hfind.
    + destruct (Hok name file) as (t & Hcsv & Hrows); [by left|done|].
      rewrite Hcsv.
      rewrite (load_environment_loop_found _ _ _ _ _ _ _ _ Hfind Hcsv Hrows Hd).
      assert (Hfresh : VStr (split_head "_" name) ∉ dict_keys d).
      { apply NoDup_app in Hnd as (_ & Hdisj & _). intros Hin.
        apply (Hdisj _ Hin). by left. }
      rewrite (dict_set_fresh _ _ _ Hfresh).
      assert (Henv : env_data < length (heap s)) by by eapply lookup_lt_Some.
      rewrite IH with (d := d ++ [(VStr (split_head "_" name), length (heap s))]).
      * cbn [heap page]. rewrite length_insert, length_app. simpl.
        rewrite Nat.add_1_r. do 2 f_equal.
        rewrite <- (insert_app_l (heap s ++ [_]) _ env_data)
          by (rewrite length_app; simpl; lia).
        rewrite list_insert_insert_eq. by rewrite <- !app_assoc.
      * simpl. apply list_lookup_insert_eq. rewrite length_app. simpl. lia.
      * by eapply loadable_cons.
      * rewrite dict_keys_app. simpl. by rewrite <- app_assoc.
    + rewrite (load_environment_loop_missing _ _ _ _ _ Hfind).
      rewrite IH with (d := d); [|done|by eapply loadable_cons|done].
      simpl. by rewrite <- app_assoc.
Qed.

(** Whether every resolved target is good can be decided by looking at
    the targets one by one. *)
Lemma loadable_or_not (DATA_DIR : directory) (names : list string) :
  loadable DATA_DIR names ∨
  ∃ name file, name ∈ names ∧ find_file_safe DATA_DIR name = Some file ∧
    ∀ t, csv_contents file = inr t → rows t = [].
Proof.
  induction names as [|name rest [IH|(bad & file & Hin & Hfind & Hbad)]].
  - left. intros n f Hn. by apply elem_of_nil in Hn.
  - destruct (find_file_safe DATA_DIR name) as [file|] eqn:Hfind.
    + destruct (csv_contents file) as [e|t] eqn:Hcsv.
      * right. exists name, file. split_and!; [by left|done|]. intros t. by rewrite Hcsv.
      * destruct (rows t) as [|r rs] eqn:Hrows.
        -- right. exists name, file. split_and!; [by left|done|].
           intros t'. rewrite Hcsv. by intros [= <-].
        -- left. intros n f Hn Hf.
           apply elem_of_cons in Hn as [->|Hn]; [|by apply (IH n f)].
           rewrite Hfind in Hf. injection Hf as <-. exists t. by rewrite Hrows.
    + left. intros n f Hn Hf.
      apply elem_of_cons in Hn as [->|Hn]; [|by apply (IH n f)].
      by rewrite Hfind in Hf.
  - right. exists bad, file. split_and!; [by right|done|done].
Qed.

(** A resolved target that is unreadable or has no rows ends the loop
    with an exception: [IndexError], or the reader's. *)
Lemma load_environment_loop_raises (DATA_DIR : directory) (env_data : addr)
    (names : list string) (d : dict addr) (s : state) :
  heap s !! env_data = Some (ODict d) →
  (∃ name file, name ∈ names ∧ find_file_safe DATA_DIR name = Some file ∧
     ∀ t, csv_contents file = inr t → rows t = []) →
  ∃ e, (load_environment_loop DATA_DIR env_data names s).1 = Raise e ∧
    (e = IndexError ∨
     ∃ name file, name ∈ names ∧ find_file_safe DATA_DIR name = Some file ∧
       csv_contents file = inl e).
Proof.
  revert d s. induction names as [|name rest IH]; intros d s Hd (bad & file & Hin & Hfind & Hbad).
  { by apply elem_of_nil in Hin. }
  assert (Hrest : ∀ d1 s1, heap s1 !! env_data = Some (ODict d1) → bad ∈ rest →
            ∃ e, (load_environment_loop DATA_DIR env_data rest s1).1 = Raise e ∧
              (e = IndexError ∨
               ∃ name0 file0, name0 ∈ name :: rest ∧
                 find_file_safe DATA_DIR name0 = Some file0 ∧ csv_contents file0 = inl e)).
  { intros d1 s1 Hd1 Hbad_in.
    destruct (IH d1 s1 Hd1) as (e & He & Hwhy); [by exists bad, file|].
    exists e. split; [done|].
    destruct Hwhy as [?|(n0 & f0 & ? & ? & ?)]; [by left|].
    right. exists n0, f0. split_and!; [by right|done|done]. }
  destruct (find_file_safe DATA_DIR name) as [file0|] eqn:Hfind0.
  - destruct (csv_contents file0) as [e|t] eqn:Hcsv.
    + exists e. split; [by eapply load_environment_loop_unreadable|].
      right. exists name, file0. split_and!; [by left|done|done].
    + destruct (rows t) as [|r rs] eqn:Hrows.
      * exists IndexError. split; [by eapply load_environment_loop_empty|by left].
      * rewrite (load_environment_loop_found _ _ _ _ _ _ d _ Hfind0 Hcsv); [|by rewrite Hrows|done].
        eapply Hrest.
        -- simpl. apply list_lookup_insert_eq. rewrite length_app. simpl.
           apply lookup_lt_Some in Hd. lia.
        -- apply elem_of_cons in Hin as [->|Hin]; [|done].
           rewrite Hfind0 in Hfind. injection Hfind as <-.
           specialize (Hbad t Hcsv). by rewrite Hrows in Hbad.
  - rewrite (load_environment_loop_missing _ _ _ _ _ Hfind0).
    eapply Hrest; [done|].
    apply elem_of_cons in Hin as [->|Hin]; [|done]. by rewrite Hfind0 in Hfind.
Qed.

Lemma csv_targets_schools_NoDup :
  NoDup (map (λ name, VStr (split_head "_" name)) csv_targets).
Proof. apply (bool_decide_unpack _). by vm_compute. Qed.

Lemma load_environment_data_run (DATA_DIR : directory) (s : state) :
  load_environment_data DATA_DIR s =
  match load_environment_loop DATA_DIR (length (heap s)) csv_targets
          {| heap := heap s ++ [ODict []]; page := page s |} with
  | (Return _, s') => (Return (length (heap s)), s')
  | (Raise e, s') => (Raise e, s')
  | (Halt, s') => (Halt, s')
  end.
Proof.
  unfold load_environment_data, new_dict, alloc, bind, ret.
  by destruct (load_environment_loop DATA_DIR (length (heap s)) csv_targets _)
       as [[[]|e|] s'].
Qed.

Lemma env_tables_keys (DATA_DIR : directory) (names : list string) :
  loadable DATA_DIR names →
  map fst (env_tables DATA_DIR names) =
  map (λ name, VStr (split_head "_" name)) (List.filter (resolved DATA_DIR) names).
Proof.
  induction names as [|name rest IH]; intros Hok; [done|].
  rewrite env_tables_cons, map_app, IH by by eapply loadable_cons.
  simpl. unfold resolved at 2.
  destruct (find_file_safe DATA_DIR name) as [file|] eqn:Hfind; [|done].
  destruct (Hok name file) as (t & -> & _); [by left|done|done].
Qed.

Lemma filter_resolved_length (DATA_DIR : directory) (names : list string) :
  length (List.filter (resolved DATA_DIR) names) +
  length (List.filter (λ name, negb (resolved DATA_DIR name)) names) = length names.
Proof.
  induction names as [|name rest IH]; simpl; [done|].
  destruct (resolved DATA_DIR name); simpl; lia.
Qed.

End Loaders.

Section LoaderTheorems.
Context `{Libraries}.

(** Under [loadable] the load returns the address of its new mapping. *)
Lemma load_environment_data_returns (DATA_DIR : directory) (s : state) :
  loadable DATA_DIR csv_targets →
  load_environment_data DATA_DIR s =
    (Return (length (heap s)),
     {| heap :=
          heap s ++
          ODict (zip (map fst (env_tables DATA_DIR csv_targets))
                   (seq (S (length (heap s)))
                      (length (env_tables DATA_DIR csv_targets))))
          :: map (λ p, OFrame p.2) (env_tables DATA_DIR csv_targets);
        page := page s ++ env_warnings DATA_DIR csv_targets |}).
Proof.
  intros Hok. rewrite load_environment_data_run.
  rewrite (load_environment_loop_ok DATA_DIR (length (heap s)) csv_targets []).
  - cbn [heap page]. rewrite length_app. cbn [length]. rewrite Nat.add_1_r.
    rewrite insert_app_l by (rewrite length_app; simpl; lia).
    by rewrite insert_snoc_new, <- app_assoc.
  - apply lookup_snoc_new.
  - done.
  - apply csv_targets_schools_NoDup.
Qed.

(** C8, as amended. When every resolved target parses to at least one
    row, the load returns a new mapping that holds exactly the sources
    whose files resolved, each with its tagged table, and the page gains
    exactly one warning per unresolved target; with exactly one target
    unresolved that is three entries and one warning. *)
Theorem load_environment_data_tolerates_missing (DATA_DIR : directory) (s : state) :
  loadable DATA_DIR csv_targets →
  load_environment_data DATA_DIR s =
    (Return (length (heap s)),
     {| heap :=
          heap s ++
          ODict (zip (map fst (env_tables DATA_DIR csv_targets))
                   (seq (S (length (heap s)))
                      (length (env_tables DATA_DIR csv_targets))))
          :: map (λ p, OFrame p.2) (env_tables DATA_DIR csv_targets);
        page := page s ++ env_warnings DATA_DIR csv_targets |}) ∧
  map fst (env_tables DATA_DIR csv_targets) =
    map (λ name, VStr (split_head "_" name))
      (List.filter (resolved DATA_DIR) csv_targets) ∧
  (length (List.filter (λ name, negb (resolved DATA_DIR name)) csv_targets) = 1 →
   length (env_tables DATA_DIR csv_targets) = 3 ∧
   length (env_warnings DATA_DIR csv_targets) = 1).
Proof.
  intros Hok. split_and!.
  - by apply load_environment_data_returns.
  - by apply env_tables_keys.
  - intros Hone.
    assert (Hlen : length (env_tables DATA_DIR csv_targets) =
              length (List.filter (resolved DATA_DIR) csv_targets)).
    { rewrite <- (length_map fst), env_tables_keys by done. by rewrite length_map. }
    pose proof (filter_resolved_length DATA_DIR csv_targets) as Hsum.
    rewrite Hone in Hsum. split.
    + rewrite Hlen. change (length csv_targets) with 4 in Hsum. lia.
    + unfold env_warnings. by rewrite length_map.
Qed.

(** C10. The load returns exactly when every target that resolves parses
    to at least one row.  A resolved file without rows makes it raise:
    [IndexError] from [iloc[0]], unless a reader error comes first. *)
Theorem load_environment_data_total_iff_loadable (DATA_DIR : directory) (s : state) :
  (returns (load_environment_data DATA_DIR s).1 ↔ loadable DATA_DIR csv_targets) ∧
  (∀ name file t,
     name ∈ csv_targets →
     find_file_safe DATA_DIR name = Some file →
     csv_contents file = inr t →
     rows t = [] →
     ∃ e, (load_environment_data DATA_DIR s).1 = Raise e ∧
       (e = IndexError ∨
        ∃ name' file', name' ∈ csv_targets ∧
          find_file_safe DATA_DIR name' = Some file' ∧ csv_contents file' = inl e)).
Proof.
  assert (Hraise :
    (∃ name file, name ∈ csv_targets ∧ find_file_safe DATA_DIR name = Some file ∧
       ∀ t, csv_contents file = inr t → rows t = []) →
    ∃ e, (load_environment_data DATA_DIR s).1 = Raise e ∧
      (e = IndexError ∨
       ∃ name' file', name' ∈ csv_targets ∧
         find_file_safe DATA_DIR name' = Some file' ∧ csv_contents file' = inl e)).
  { intros Hbad. rewrite load_environment_data_run.
    destruct (load_environment_loop_raises DATA_DIR (length (heap s)) csv_targets []
                {| heap := heap s ++ [ODict []]; page := page s |}) as (e & He & Hwhy);
      [apply lookup_snoc_new|done|].
    exists e. split; [|done].
    destruct (load_environment_loop _ _ _ _) as [[[]|e'|] s']; simpl in *; congruence. }
  split; [split|].
  - intros [env Hret].
    destruct (loadable_or_not DATA_DIR csv_targets) as [Hok|Hbad]; [done|].
    destruct (Hraise Hbad) as (e & He & _). congruence.
  - intros Hok.
    exists (length (heap s)). by rewrite load_environment_data_returns.
  - intros name file t Hin Hfind Hcsv Hrows. apply Hraise.
    exists name, file. split_and!; try done.
    intros t'. rewrite Hcsv. by intros [= <-].
Qed.

End LoaderTheorems.

(** ** What loading leaves behind *)

Lemma dict_set_keys {V} (k : pyval) (v : V) (d : dict V) :
  dict_keys (dict_set k v d) =
  if decide (k ∈ dict_keys d) then dict_keys d else dict_keys d ++ [k].
Proof.
  induction d as [|[k' v'] d IH]; simpl; [done|].
  destruct (decide (k = k')) as [->|Hne]; simpl.
  - rewrite decide_True; [done|by left].
  - rewrite IH. destruct (decide (k ∈ dict_keys d)) as [Hin|Hout].
    + rewrite decide_True; [done|by right].
    + rewrite decide_False; [done|].
      intros Hin. apply elem_of_cons in Hin as [?|?]; done.
Qed.

Lemma dict_set_keys_NoDup {V} (k : pyval) (v : V) (d : dict V) :
  NoDup (dict_keys d) → NoDup (dict_keys (dict_set k v d)).
Proof.
  intros Hnd. rewrite dict_set_keys. case_decide; [done|].
  apply NoDup_app. split_and!; [done| |apply NoDup_singleton].
  intros x Hx Hx'. apply list_elem_of_singleton in Hx' as ->. done.
Qed.

Lemma dict_set_values {V} (P : V → Prop) (k : pyval) (v : V) (d : dict V) :
  Forall (λ item, P item.2) d → P v → Forall (λ item, P item.2) (dict_set k v d).
Proof.
  intros Hd Hv. induction d as [|[k' v'] d IH]; simpl.
  - by constructor.
  - apply Forall_cons in Hd as [Hv' Hd].
    case_decide; constructor; auto.
Qed.

Lemma tables_dict_intro (s : state) (a : addr) (d : dict addr) :
  heap s !! a = Some (ODict d) →
  NoDup (dict_keys d) →
  Forall (λ item, ∃ t, heap s !! item.2 = Some (OFrame t)) d →
  tables_dict s a.
Proof.
  intros Ha Hnd Hts. apply Forall_exists_Forall2_l in Hts as [ts Hts].
  by exists d, ts.
Qed.

Lemma tables_dict_preserved (s s' : state) (a : addr) :
  (∀ b o, heap s !! b = Some o → heap s' !! b = Some o) →
  tables_dict s a → tables_dict s' a.
Proof.
  intros Hkeep (d & ts & Ha & Hnd & Hts). exists d, ts. split_and!; [auto|done|].
  eapply Forall2_impl; [done|]. intros item t Hitem. by apply Hkeep.
Qed.

Section Reachable.
Context `{Libraries}.

Lemma NoDup_schools_filter (p : string → bool) (names : list string) :
  NoDup (map (λ name, VStr (split_head "_" name)) names) →
  NoDup (map (λ name, VStr (split_head "_" name)) (List.filter p names)).
Proof.
  induction names as [|name rest IH]; simpl; [done|].
  intros Hnd. apply NoDup_cons in Hnd as [Hout Hnd].
  destruct (p name); simpl; [|by apply IH].
  apply NoDup_cons. split; [|by apply IH].
  intros Hin. apply Hout.
  apply list_elem_of_In, in_map_iff in Hin as (n & Hn & Hin).
  apply filter_In in Hin as [Hin _].
  apply list_elem_of_In, in_map_iff. by exists n.
Qed.

(** the tables a load has put behind the objects [pre] *)
Lemma tables_of_loaded (tabs : list (pyval * DataFrame)) (pre : list obj) (pg : list element) :
  tables_of {| heap := pre ++ map (λ p, OFrame p.2) tabs; page := pg |}
    (zip (map fst tabs) (seq (length pre) (length tabs))) (map snd tabs).
Proof.
  revert pre. induction tabs as [|[k t] tabs IH]; intros pre; simpl; [constructor|].
  constructor.
  - simpl. by apply list_lookup_middle.
  - specialize (IH (pre ++ [OFrame t])).
    rewrite length_app, Nat.add_1_r, <- app_assoc in IH. done.
Qed.

(** After the environmental load has returned, its mapping is a
    dictionary of tables with distinct keys. *)
Lemma load_environment_data_tables_dict (DATA_DIR : directory) (s s' : state) (env_data : addr) :
  load_environment_data DATA_DIR s = (Return env_data, s') →
  tables_dict s' env_data ∧ length (heap s) ≤ env_data.
Proof.
  intros Hrun.
  assert (Hok : loadable DATA_DIR csv_targets).
  { destruct (loadable_or_not DATA_DIR csv_targets) as [Hok|Hbad]; [done|].
    destruct (load_environment_loop_raises DATA_DIR (length (heap s)) csv_targets []
                {| heap := heap s ++ [ODict []]; page := page s |}) as (e & He & _);
      [apply lookup_snoc_new|done|].
    rewrite load_environment_data_run in Hrun.
    destruct (load_environment_loop _ _ _ _) as [[[]|e'|] s2]; simpl in *; congruence. }
  rewrite (load_environment_data_returns _ _ Hok) in Hrun.
  injection Hrun as <- <-. split; [|done].
  set (tabs := env_tables DATA_DIR csv_targets).
  pose proof (tables_of_loaded tabs (heap s ++ [ODict (zip (map fst tabs)
                                     (seq (S (length (heap s))) (length tabs)))])
                (page s ++ env_warnings DATA_DIR csv_targets)) as Hts.
  rewrite length_app, Nat.add_1_r, <- app_assoc in Hts.
  eexists _, _. split_and!; [| |exact Hts].
  - cbn [heap]. by apply list_lookup_middle.
  - unfold dict_keys. rewrite fst_zip by (rewrite length_map, length_seq; lia).
    unfold tabs. rewrite (env_tables_keys _ _ Hok).
    apply NoDup_schools_filter, csv_targets_schools_NoDup.
Qed.

(** One pass over the sheets keeps the growth mapping a dictionary of
    tables and touches no other object. *)
Lemma load_growth_loop_inv (xls : list (string * DataFrame)) (growth_data : addr)
    (sheet_names : list string) (s s' : state) (d : dict addr) :
  load_growth_loop xls growth_data sheet_names s = (Return tt, s') →
  heap s !! growth_data = Some (ODict d) →
  NoDup (dict_keys d) →
  Forall (λ item, ∃ t, heap s !! item.2 = Some (OFrame t)) d →
  page s' = page s ∧
  (∀ b o, b ≠ growth_data → heap s !! b = Some o → heap s' !! b = Some o) ∧
  ∃ d', heap s' !! growth_data = Some (ODict d') ∧ NoDup (dict_keys d') ∧
    Forall (λ item, ∃ t, heap s' !! item.2 = Some (OFrame t)) d'.
Proof.
  revert s d. induction sheet_names as [|sheet rest IH]; intros s d Hrun Hg Hnd Hts.
  - injection Hrun as <-. split_and!; [done|done|]. by exists d.
  - simpl in Hrun. unfold pd_read_excel in Hrun.
    destruct (list_find (λ p, p.1 = sheet) xls) as [[i [n t]]|]; [|done].
    assert (Hlt : growth_data < length (heap s)) by by eapply lookup_lt_Some.
    rewrite (bind_Return (alloc (OFrame t)) _ s _ _ eq_refl) in Hrun.
    erewrite (bind_Return (df_setitem _ _ _)) in Hrun;
      [|apply df_setitem_run; apply lookup_snoc_new].
    cbn [heap page] in Hrun. rewrite insert_snoc_new in Hrun.
    erewrite (bind_Return (dict_setitem _ _ _)) in Hrun;
      [|apply dict_setitem_run; cbn [heap]; by apply lookup_app_l_Some].
    cbn [heap page] in Hrun.
    set (t' := frame_setitem "school" (VStr sheet) t) in *.
    set (d1 := dict_set (VStr sheet) (length (heap s)) d) in *.
    assert (Hkeep : ∀ b o, b ≠ growth_data → heap s !! b = Some o →
              <[growth_data := ODict d1]> (heap s ++ [OFrame t']) !! b = Some o).
    { intros b o Hb Ho. rewrite list_lookup_insert_ne by done.
      by apply lookup_app_l_Some. }
    apply IH with (d := d1) in Hrun as (Hpage & Hkeep' & Hd').
    + split_and!; [done| |done]. intros b o Hb Ho. apply Hkeep'; [done|]. by apply Hkeep.
    + cbn [heap]. apply list_lookup_insert_eq. rewrite length_app. simpl. lia.
    + by apply dict_set_keys_NoDup.
    + cbn [heap]. unfold d1.
      apply (dict_set_values
               (λ a, ∃ t0, <[growth_data := ODict d1]> (heap s ++ [OFrame t']) !! a =
                           Some (OFrame t0))).
      * eapply Forall_impl; [done|]. intros item [t0 Ht0]. exists t0.
        apply Hkeep; [|done]. intros Heq. rewrite Heq, Hg in Ht0. done.
      * exists t'. rewrite list_lookup_insert_ne by lia. apply lookup_snoc_new.
Qed.

Lemma load_growth_data_tables_dict (DATA_DIR : directory) (s s' : state) (growth_data : addr) :
  load_growth_data DATA_DIR s = (Return growth_data, s') →
  tables_dict s' growth_data ∧
  (∀ b o, heap s !! b = Some o → heap s' !! b = Some o).
Proof.
  unfold load_growth_data. intros Hrun.
  destruct (find_file_safe DATA_DIR xlsx_name) as [file|].
  - destruct (excel_contents file) as [e|xls]; [done|].
    rewrite (bind_Return (lift (inr xls)) _ s _ _ eq_refl) in Hrun.
    rewrite (bind_Return new_dict _ s _ _ eq_refl) in Hrun.
    apply bind_inv_Return in Hrun as ([] & s2 & Hloop & [= <- <-]).
    apply load_growth_loop_inv with (d := []) in Hloop as (_ & Hkeep & d' & Hd' & Hnd & Hts).
    + split; [by eapply tables_dict_intro|].
      intros b o Hb. apply Hkeep.
      * apply lookup_lt_Some in Hb. lia.
      * cbn [heap]. by apply lookup_app_l_Some.
    + apply lookup_snoc_new.
    + constructor.
    + constructor.
  - rewrite (bind_Return (emit _) _ s _ _ eq_refl) in Hrun.
    injection Hrun as <- <-. split.
    + apply tables_dict_intro with (d := []); [apply lookup_snoc_new|constructor|constructor].
    + intros b o Hb. cbn [heap]. by apply lookup_app_l_Some.
Qed.

(** Whenever loading returns, both mappings are dictionaries of tables
    with distinct keys: the hypotheses of the aggregation theorems hold
    in every state the dashboard can start from. *)
Lemma startup_tables_dicts (DATA_DIR : directory) (s s1 : state)
    (env_data growth_data : addr) :
  startup DATA_DIR s = (Return (env_data, growth_data), s1) →
  tables_dict s1 env_data ∧ tables_dict s1 growth_data.
Proof.
  unfold startup, load_all. intros Hrun.
  rewrite (bind_Return (emit _) _ s _ _ eq_refl) in Hrun.
  rewrite (bind_Return (emit _) _ _ _ _ eq_refl) in Hrun.
  rewrite (bind_Return (emit _) _ _ _ _ eq_refl) in Hrun.
  apply bind_inv_Return in Hrun as (env & s2 & Henv & Hrun).
  apply bind_inv_Return in Hrun as (growth & s3 & Hgrowth & [= <- <- <-]).
  apply load_environment_data_tables_dict in Henv as [Henv _].
  apply load_growth_data_tables_dict in Hgrowth as [Hgrowth Hkeep].
  split; [|done]. by eapply tables_dict_preserved.
Qed.

End Reachable.

(** ** The barrier *)

Section Barrier.
Context `{Libraries}.

Lemma barrier_run (env_data growth_data : addr) (e g : dict addr) (s : state) :
  heap s !! env_data = Some (ODict e) →
  heap s !! growth_data = Some (ODict g) →
  barrier env_data growth_data s =
  if dict_is_empty e || dict_is_empty g then (Halt, s) else (Return tt, s).
Proof.
  intros He Hg. unfold barrier.
  rewrite (bind_Return _ _ _ _ _ (load_dict_run _ _ _ He)).
  rewrite (bind_Return _ _ _ _ _ (load_dict_run _ _ _ Hg)).
  by destruct (dict_is_empty e || dict_is_empty g).
Qed.

(** X10. With both mappings non-empty the script goes on to the dashboard. *)
Lemma barrier_passes (DATA_DIR : directory) (school_option : string) (s s1 : state)
    (env_data growth_data : addr) (e g : dict addr) :
  startup DATA_DIR s = (Return (env_data, growth_data), s1) →
  heap s1 !! env_data = Some (ODict e) →
  heap s1 !! growth_data = Some (ODict g) →
  e ≠ [] → g ≠ [] →
  main DATA_DIR school_option s = dashboard env_data growth_data school_option s1.
Proof.
  intros Hstart He Hg Hne Hng. unfold main.
  rewrite (bind_Return _ _ _ _ _ Hstart). cbn [fst snd].
  erewrite (bind_Return (barrier _ _)); [done|].
  rewrite (barrier_run _ _ _ _ _ He Hg). by destruct e, g.
Qed.

(** C3. When loading has returned and one of the two mappings is empty,
    the run ends with [st.stop()] in the very state loading left: no
    table has been computed and nothing has been put on the page since. *)
Theorem barrier_halts_on_empty_mapping (DATA_DIR : directory) (school_option : string)
    (s s1 : state) (env_data growth_data : addr) :
  startup DATA_DIR s = (Return (env_data, growth_data), s1) →
  heap s1 !! env_data = Some (ODict []) ∨ heap s1 !! growth_data = Some (ODict []) →
  main DATA_DIR school_option s = (Halt, s1).
Proof.
  intros Hstart Hempty. unfold main.
  rewrite (bind_Return _ _ _ _ _ Hstart). cbn [fst snd].
  destruct (startup_tables_dicts _ _ _ _ _ Hstart)
    as [(e & _ & He & _) (g & _ & Hg & _)].
  erewrite (bind_Halt (barrier _ _)); [done|].
  rewrite (barrier_run _ _ _ _ _ He Hg).
  destruct Hempty as [He'|Hg'].
  - rewrite He in He'. by injection He' as ->.
  - rewrite Hg in Hg'. injection Hg' as ->. by rewrite orb_true_r.
Qed.

(** A school that is selected and not loaded: the lookup [env_data[school]]
    raises before any row is built. *)
Lemma avg_rows_loop_absent (env_data : addr) (school : pyval) (rest : list pyval)
    (avg_rows : list (list pyval)) (d : dict addr) (s : state) :
  heap s !! env_data = Some (ODict d) →
  school ∉ dict_keys d →
  avg_rows_loop env_data (school :: rest) avg_rows s = (Raise (KeyError school), s).
Proof.
  intros Hd Habsent. simpl.
  rewrite (bind_Return _ _ _ _ _ (load_dict_run _ _ _ Hd)).
  unfold dict_getitem. by rewrite (dict_get_None _ _ Habsent).
Qed.

End Barrier.

(** ** The sample runs *)

(** The example of the specification: means A 5.0, B 9.2, C 3.1, D 9.2. *)
Example optimal_school_example :
  optimal_school [ (VStr "A", Finite 5); (VStr "B", Finite (92 # 10));
                   (VStr "C", Finite (31 # 10)); (VStr "D", Finite (92 # 10)) ]
  = inr (VStr "B").
Proof. reflexivity. Qed.

(** The claim without its amendment fails: the first sheet has no weight
    value, so its mean is NaN; no mean compares greater than NaN, and
    [max] keeps that school although its mean is not the maximum (5.0 is
    not below or equal to it). *)
Lemma optimal_school_nan_counterexample :
  Sample.started_empty_sheet.1 = Return (0, 2) ∧
  (weight_means (H := Sample.libraries) 2 Sample.started_empty_sheet.2).1 =
    Return [ (VStr "송도고", NaN); (VStr "하늘고", Finite 5) ] ∧
  optimal_school [ (VStr "송도고", NaN); (VStr "하늘고", Finite 5) ] =
    inr (VStr "송도고") ∧
  float_le (Finite 5) NaN = false ∧
  st_metric "최적 EC" [VFloat (Finite 1); VStr "송도고"] ∈
    page (main (H := Sample.libraries) Sample.dir_with_empty_sheet "전체"
            Sample.empty_state).2.
Proof.
  split_and!; try (vm_compute; reflexivity).
  apply (bool_decide_unpack _). vm_compute. exact I.
Qed.

Lemma optimal_school_first_maximum_witness :
  dict_keys Sample.growth_means = dict_keys Sample.growth_dict ∧
  Forall2 (λ item mean,
      column_mean (H := Sample.libraries) item.2 "생중량(g)" Sample.loaded_state =
      (Return mean, Sample.loaded_state))
    Sample.growth_dict (dict_values Sample.growth_means) ∧
  ∃ before school mean after,
    Sample.growth_means = before ++ (school, mean) :: after ∧
    optimal_school Sample.growth_means = inr school ∧
    (∀ item, item ∈ before → float_lt item.2 mean = true) ∧
    (∀ item, item ∈ after → float_le item.2 mean = true).
Proof.
  apply (optimal_school_first_maximum (H := Sample.libraries)
           Sample.loaded_state Sample.loaded_state 5).
  - vm_compute. reflexivity.
  - apply (bool_decide_unpack _). vm_compute. exact I.
  - discriminate.
  - vm_compute. reflexivity.
  - repeat constructor.
Defined.



(** All four environmental files are gone: four warnings, then the stop. *)
Lemma barrier_halts_on_empty_mapping_witness :
  main (H := Sample.libraries) Sample.dir_without_env "전체" Sample.empty_state =
  (Halt, Sample.started_without_env.2).
Proof.
  apply (barrier_halts_on_empty_mapping (H := Sample.libraries)
           Sample.dir_without_env "전체" Sample.empty_state
           Sample.started_without_env.2 0 1).
  - vm_compute. reflexivity.
  - left. vm_compute. reflexivity.
Defined.

Lemma dir_without_songdo_loadable :
  loadable (H := Sample.libraries) Sample.dir_without_songdo csv_targets.
Proof.
  intros name file Hin Hfind.
  repeat (apply elem_of_cons in Hin as [->|Hin]);
    [..|by apply elem_of_nil in Hin];
    vm_compute in Hfind;
    first [discriminate Hfind
          |injection Hfind as <-; eexists; split; [reflexivity|discriminate]].
Defined.

(** One file removed, the other three good: three entries, one warning. *)
Lemma load_environment_data_tolerates_missing_witness :
  load_environment_data (H := Sample.libraries) Sample.dir_without_songdo Sample.empty_state =
    (Return 0,
     {| heap :=
          [] ++
          ODict (zip (map fst (env_tables (H := Sample.libraries)
                                 Sample.dir_without_songdo csv_targets))
                   (seq 1 (length (env_tables (H := Sample.libraries)
                                     Sample.dir_without_songdo csv_targets))))
          :: map (λ p, OFrame p.2)
               (env_tables (H := Sample.libraries) Sample.dir_without_songdo csv_targets);
        page := [] ++ env_warnings (H := Sample.libraries)
                        Sample.dir_without_songdo csv_targets |}) ∧
  map fst (env_tables (H := Sample.libraries) Sample.dir_without_songdo csv_targets) =
    map (λ name, VStr (split_head "_" name))
      (List.filter (resolved (H := Sample.libraries) Sample.dir_without_songdo)
         csv_targets) ∧
  (length (List.filter
             (λ name, negb (resolved (H := Sample.libraries)
                              Sample.dir_without_songdo name)) csv_targets) = 1 →
   length (env_tables (H := Sample.libraries) Sample.dir_without_songdo csv_targets) = 3 ∧
   length (env_warnings (H := Sample.libraries) Sample.dir_without_songdo csv_targets) = 1).
Proof.
  apply (load_environment_data_tolerates_missing (H := Sample.libraries)
           Sample.dir_without_songdo Sample.empty_state).
  exact dir_without_songdo_loadable.
Defined.

(** The claim without its amendment fails: exactly one of the four files
    is missing, yet the load returns no mapping, because one of the
    files that are present has a header and no rows. *)
Lemma load_environment_data_empty_file_counterexample :
  length (List.filter
            (λ name, negb (resolved (H := Sample.libraries)
                             Sample.dir_with_empty_file name)) csv_targets) = 1 ∧
  (load_environment_data (H := Sample.libraries)
     Sample.dir_with_empty_file Sample.empty_state).1 = Raise IndexError ∧
  ¬ returns (load_environment_data (H := Sample.libraries)
               Sample.dir_with_empty_file Sample.empty_state).1.
Proof.
  split_and!.
  - vm_compute. reflexivity.
  - vm_compute. reflexivity.
  - intros [env Hret]. vm_compute in Hret. discriminate Hret.
Qed.

Lemma load_environment_data_total_iff_loadable_witness :
  ∃ e, (load_environment_data (H := Sample.libraries)
          Sample.dir_with_empty_file Sample.empty_state).1 = Raise e ∧
    (e = IndexError ∨
     ∃ name' file', name' ∈ csv_targets ∧
       find_file_safe (H := Sample.libraries) Sample.dir_with_empty_file name' = Some file' ∧
       csv_contents file' = inl e).
Proof.
  apply (proj2 (load_environment_data_total_iff_loadable (H := Sample.libraries)
                  Sample.dir_with_empty_file Sample.empty_state)
           "하늘고_환경데이터.csv"
           (Sample.csv_file "하늘고_환경데이터.csv" Sample.header_only)
           Sample.header_only).
  - apply (bool_decide_unpack _). vm_compute. exact I.
  - vm_compute. reflexivity.
  - reflexivity.
  - reflexivity.
Defined.

(** C4 (the code falls short of it). The file of 송도고 is missing, the
    other sources load, and 송도고 is chosen in the sidebar: the lookup
    [env_data[school]] raises [KeyError] and ends the run; the school is
    neither skipped nor reported. *)
Theorem environment_averages_absent_school_raises :
  "송도고" ∈ school_options ∧
  Sample.started_without_songdo.1 = Return (0, 4) ∧
  heap Sample.started_without_songdo.2 !! 0 =
    Some (ODict [ (VStr "하늘고", 1); (VStr "아라고", 2); (VStr "동산고", 3) ]) ∧
  selected_schools 0 "송도고" Sample.started_without_songdo.2 =
    (Return [VStr "송도고"], Sample.started_without_songdo.2) ∧
  environment_averages (H := Sample.libraries) 0 [VStr "송도고"]
    Sample.started_without_songdo.2 =
    (Raise (KeyError (VStr "송도고")), Sample.started_without_songdo.2) ∧
  (main (H := Sample.libraries) Sample.dir_without_songdo "송도고" Sample.empty_state).1 =
    Raise (KeyError (VStr "송도고")).
Proof.
  split_and!.
  - apply (bool_decide_unpack _). vm_compute. exact I.
  - vm_compute. reflexivity.
  - vm_compute. reflexivity.
  - vm_compute. reflexivity.
  - unfold environment_averages.
    erewrite (bind_Raise (avg_rows_loop _ _ _)); [done|].
    eapply (avg_rows_loop_absent (H := Sample.libraries)).
    + vm_compute. reflexivity.
    + apply (bool_decide_unpack _). vm_compute. exact I.
  - vm_compute. reflexivity.
Qed.

(** C5 (the code falls short of it). The workbook has a sheet for a
    school that [EC_MAP] does not list: the overview fills in [None] for
    its target EC and colour and is put on the page, while the lookup of
    the same school in the weight table raises [KeyError]. *)
Theorem overview_defaults_missing_design_entry :
  dict_get (VStr "극지고") EC_MAP = None ∧
  Sample.started_unknown_school.1 = Return (0, 2) ∧
  (overview 2 Sample.started_unknown_school.2).1 =
    Return ([ [VStr "송도고"; VFloat (Finite 1); VInt 1; VStr "#1f77b4"];
              [VStr "극지고"; VNone; VInt 1; VNone] ], 2%Z, 5) ∧
  (weight_by_source (H := Sample.libraries) 2 Sample.started_unknown_school.2).1 =
    Raise (KeyError (VStr "극지고")) ∧
  (main (H := Sample.libraries) Sample.dir_with_unknown_school "전체" Sample.empty_state).1 =
    Raise (KeyError (VStr "극지고")) ∧
  st_dataframe 5 ∈
    page (main (H := Sample.libraries) Sample.dir_with_unknown_school "전체"
            Sample.empty_state).2.
Proof.
  split_and!; try (vm_compute; reflexivity).
  apply (bool_decide_unpack _). vm_compute. exact I.
Qed.

(* ===================================================================== *)
(** * Further properties of the script *)
(* ===================================================================== *)

(** ** The resolver's answer *)

Section ResolverAnswer.
Context `{Libraries}.

(** X2. An entry the resolver returns is an entry of the directory, its NFC
    name is the target's, and no entry enumerated before it matches. *)
Theorem find_file_safe_found (directory : directory) (target_name : string) (f : file) :
  find_file_safe directory target_name = Some f →
  ∃ i, directory !! i = Some f ∧
    normalize_name (file_name f) = normalize_name target_name ∧
    ∀ j earlier, directory !! j = Some earlier → j < i →
      normalize_name (file_name earlier) ≠ normalize_name target_name.
Proof.
  unfold find_file_safe. rewrite find_file_loop_list_find. intros Hfind.
  destruct (list_find _ directory) as [[i x]|] eqn:Hlf; [|done].
  injection Hfind as ->. apply list_find_Some in Hlf as (Hi & Hf & Hbefore).
  exists i. split_and!; done.
Qed.

End ResolverAnswer.

Lemma find_file_safe_found_witness :
  ∃ i, Sample.full_dir !! i =
         Some (Sample.csv_file "하늘고_환경데이터.csv" Sample.haneul_env) ∧
    normalize_name (H := Sample.libraries) "하늘고_환경데이터.csv" =
      normalize_name (H := Sample.libraries) (Sample.hangul_nfd "하늘고_환경데이터.csv") ∧
    ∀ j earlier, Sample.full_dir !! j = Some earlier → j < i →
      normalize_name (H := Sample.libraries) (file_name earlier) ≠
      normalize_name (H := Sample.libraries) (Sample.hangul_nfd "하늘고_환경데이터.csv").
Proof.
  apply (find_file_safe_found (H := Sample.libraries) Sample.full_dir
           (Sample.hangul_nfd "하늘고_환경데이터.csv")).
  vm_compute. reflexivity.
Defined.

(** ** What [max] guarantees whatever the means *)

Section MaxAnyOrder.
Context {A B : Type} (gt : B → B → bool) (key : A → B).
Hypothesis gt_trans : ∀ x y z, gt x y = true → gt y z = true → gt x z = true.
Hypothesis gt_irrefl : ∀ x, gt x x = false.

Lemma gt_asym (x y : B) : gt x y = true → gt y x = false.
Proof.
  intros Hxy. destruct (gt y x) eqn:Hyx; [|done].
  by rewrite <- (gt_irrefl x), (gt_trans x y x).
Qed.

Lemma max_from_not_exceeded (l : list A) (cur : A) :
  max_from gt key cur (key cur) l ∈ cur :: l ∧
  (gt (key (max_from gt key cur (key cur) l)) (key cur) = true ∨
   max_from gt key cur (key cur) l = cur) ∧
  ∀ a, a ∈ cur :: l → gt (key a) (key (max_from gt key cur (key cur) l)) = false.
Proof.
  revert cur. induction l as [|item l IH]; intros cur; simpl.
  - split_and!; [by left|by right|].
    intros a Ha. apply list_elem_of_singleton in Ha as ->. apply gt_irrefl.
  - destruct (gt (key item) (key cur)) eqn:Hgt.
    + destruct (IH item) as (Hin & Hrel & Hmax). split_and!.
      * by right.
      * left. destruct Hrel as [Hrel| ->]; [by eapply gt_trans|done].
      * intros a Ha. apply elem_of_cons in Ha as [->|Ha]; [|by apply Hmax].
        apply gt_asym. destruct Hrel as [Hrel| ->]; [by eapply gt_trans|done].
    + destruct (IH cur) as (Hin & Hrel & Hmax). split_and!.
      * apply elem_of_cons in Hin as [->|Hin]; [by left|by do 2 right].
      * done.
      * intros a Ha. apply elem_of_cons in Ha as [->|Ha]; [apply Hmax; by left|].
        apply elem_of_cons in Ha as [->|Ha]; [|apply Hmax; by right].
        destruct Hrel as [Hrel|Heq]; [|by rewrite Heq].
        destruct (gt (key item) (key (max_from gt key cur (key cur) l))) eqn:Hitem; [|done].
        by rewrite <- Hgt, (gt_trans _ _ _ Hitem Hrel).
Qed.

End MaxAnyOrder.

Lemma float_lt_irrefl (x : pyfloat) : float_lt x x = false.
Proof.
  destruct x as [a|[]|]; try done.
  destruct (float_lt (Finite a) (Finite a)) eqn:Hlt; [|done].
  apply finite_lt_iff in Hlt. by apply Qlt_irrefl in Hlt.
Qed.

Lemma mean_gt_irrefl (x : option pyfloat) : mean_gt x x = false.
Proof. destruct x as [a|]; [apply float_lt_irrefl|done]. Qed.

(** X3. Whatever the means are, NaN included, the school [max] picks is one
    of the schools of the mapping, and no school's mean compares greater
    than its mean. *)
Theorem optimal_school_not_exceeded (wm : dict pyfloat) :
  NoDup (dict_keys wm) →
  wm ≠ [] →
  ∃ school mean,
    optimal_school wm = inr school ∧
    (school, mean) ∈ wm ∧
    ∀ item, item ∈ wm → float_gt item.2 mean = false.
Proof.
  intros Hnd Hne. unfold optimal_school.
  destruct wm as [|[k0 v0] wm0] eqn:Hwm; [done|]. rewrite <- Hwm in *.
  assert (Hkey : ∀ item, item ∈ wm → dict_get item.1 wm = Some item.2).
  { intros [k v] Hin. by apply dict_get_elem_of. }
  assert (Hkeys : dict_keys wm = k0 :: dict_keys wm0) by by rewrite Hwm.
  rewrite Hkeys. simpl.
  destruct (max_from_not_exceeded mean_gt (λ school, dict_get school wm)
              mean_gt_trans mean_gt_irrefl (dict_keys wm0) k0) as (Hin & _ & Hmax).
  set (best := max_from mean_gt (λ school, dict_get school wm) k0
                 (dict_get k0 wm) (dict_keys wm0)) in *.
  rewrite <- Hkeys in Hin, Hmax.
  apply list_elem_of_fmap in Hin as ([k mean] & Hk & Hin). simpl in Hk.
  exists best, mean. split_and!; [done|by rewrite Hk|].
  intros [k' v'] Hin'. simpl.
  pose proof (Hkey _ Hin') as Hv'. pose proof (Hkey _ Hin) as Hmean.
  simpl in Hv', Hmean. rewrite <- Hk in Hmean.
  specialize (Hmax k'). rewrite Hv', Hmean in Hmax.
  apply Hmax. apply list_elem_of_fmap. by exists (k', v').
Qed.

Lemma optimal_school_not_exceeded_witness :
  ∃ school mean,
    optimal_school [ (VStr "송도고", NaN); (VStr "하늘고", Finite 5);
                     (VStr "아라고", Finite 7) ] = inr school ∧
    (school, mean) ∈ [ (VStr "송도고", NaN); (VStr "하늘고", Finite 5);
                       (VStr "아라고", Finite 7) ] ∧
    ∀ item, item ∈ [ (VStr "송도고", NaN); (VStr "하늘고", Finite 5);
                     (VStr "아라고", Finite 7) ] → float_gt item.2 mean = false.
Proof.
  apply optimal_school_not_exceeded.
  - apply (bool_decide_unpack _). vm_compute. exact I.
  - discriminate.
Defined.

(** ** What the environmental load stores *)

Lemma cell_set_cell_ne (c c' : string) (v : pyval) (r : row) :
  c' ≠ c → cell c' (set_cell c v r) = cell c' r.
Proof.
  intros Hne. induction r as [|[c0 v0] r IH]; simpl.
  - by rewrite decide_False.
  - destruct (decide (c = c0)) as [->|Hc]; simpl.
    + by rewrite !decide_False.
    + case_decide; [done|apply IH].
Qed.

(** Tagging a table keeps its records: as many as before, each with the
    tag in [school] and every other cell as it was. *)
Lemma tagged_table_rows (school : string) (t : DataFrame) :
  length (rows (tagged_table school t)) = length (rows t) ∧
  Forall2 (λ r' r, cell "school" r' = VStr school ∧
                   ∀ c, c ≠ "school" → cell c r' = cell c r)
    (rows (tagged_table school t)) (rows t).
Proof.
  unfold tagged_table, frame_setitem. simpl. split; [by rewrite length_map|].
  apply Forall2_fmap_l, Forall_Forall2_diag, Forall_forall. intros r _. split.
  - apply cell_set_cell.
  - intros c Hc. by apply cell_set_cell_ne.
Qed.

(** Where the entry of a loaded source sits: its key leads to the
    address of its own table. *)
Lemma loaded_entry_lookup (tabs : list (pyval * DataFrame)) (pre : list obj)
    (k : pyval) (t : DataFrame) :
  (k, t) ∈ tabs →
  NoDup (map fst tabs) →
  ∃ a, dict_get k (zip (map fst tabs) (seq (length pre) (length tabs))) = Some a ∧
    (pre ++ map (λ p, OFrame p.2) tabs) !! a = Some (OFrame t).
Proof.
  revert pre. induction tabs as [|[k0 t0] tabs IH]; intros pre Hin Hnd.
  { by apply elem_of_nil in Hin. }
  simpl in Hnd. apply NoDup_cons in Hnd as [Hk0 Hnd]. simpl.
  apply elem_of_cons in Hin as [[= -> ->]|Hin].
  - exists (length pre). rewrite decide_True by done. split; [done|].
    by apply list_lookup_middle.
  - rewrite decide_False.
    2:{ intros ->. apply Hk0. apply list_elem_of_In, in_map_iff.
        exists (k0, t). split; [done|by apply list_elem_of_In]. }
    destruct (IH (pre ++ [OFrame t0]) Hin Hnd) as (a & Ha & Hlook).
    rewrite length_app, Nat.add_1_r in Ha. rewrite <- app_assoc in Hlook.
    by exists a.
Qed.

Section EnvironmentEntries.
Context `{Libraries}.

Lemma env_tables_elem_of (DATA_DIR : directory) (names : list string)
    (name : string) (file : file) (t : DataFrame) :
  name ∈ names →
  find_file_safe DATA_DIR name = Some file →
  csv_contents file = inr t →
  (VStr (split_head "_" name), tagged_table (split_head "_" name) t)
    ∈ env_tables DATA_DIR names.
Proof.
  intros Hin Hfind Hcsv. induction names as [|n names IH].
  { by apply elem_of_nil in Hin. }
  rewrite env_tables_cons. apply elem_of_app.
  apply elem_of_cons in Hin as [<-|Hin]; [|right; by apply IH].
  left. rewrite Hfind, Hcsv. by left.
Qed.

(** When the load has returned, every resolved target is loadable and
    the state is the one [load_environment_data_returns] describes. *)
Lemma load_environment_data_returned (DATA_DIR : directory) (s s' : state) (env_data : addr) :
  load_environment_data DATA_DIR s = (Return env_data, s') →
  loadable DATA_DIR csv_targets.
Proof.
  intros Hrun.
  destruct (loadable_or_not DATA_DIR csv_targets) as [Hok|Hbad]; [done|].
  destruct (load_environment_loop_raises DATA_DIR (length (heap s)) csv_targets []
              {| heap := heap s ++ [ODict []]; page := page s |}) as (e & He & _);
    [apply lookup_snoc_new|done|].
  rewrite load_environment_data_run in Hrun.
  destruct (load_environment_loop _ _ _ _) as [[[]|e'|] s2]; simpl in *; congruence.
Qed.

Lemma csv_targets_design_entries :
  Forall (λ name,
      is_Some (dict_get (VStr (split_head "_" name)) EC_MAP) ∧
      is_Some (dict_get (VStr (split_head "_" name)) COLOR_MAP)) csv_targets.
Proof.
  unfold csv_targets.
  repeat (apply List.Forall_cons; [split; vm_compute; eauto|]).
  apply List.Forall_nil.
Qed.

(** X4. Every source the environmental load returns has an entry in both
    design tables: for a loaded school, [EC_MAP[school]] (lines 210 and
    242) cannot raise. *)
Theorem loaded_environment_sources_have_design_entries
    (DATA_DIR : directory) (s s' : state) (env_data : addr) :
  load_environment_data DATA_DIR s = (Return env_data, s') →
  ∃ d, heap s' !! env_data = Some (ODict d) ∧
    ∀ school, school ∈ dict_keys d →
      is_Some (dict_get school EC_MAP) ∧ is_Some (dict_get school COLOR_MAP).
Proof.
  intros Hrun. pose proof (load_environment_data_returned _ _ _ _ Hrun) as Hok.
  rewrite (load_environment_data_returns _ _ Hok) in Hrun.
  pose proof (env_tables_keys _ _ Hok) as Hkeys.
  set (tabs := env_tables DATA_DIR csv_targets) in *.
  set (warnings := env_warnings DATA_DIR csv_targets) in *.
  injection Hrun as <- <-.
  eexists. split; [cbn [heap]; by apply list_lookup_middle|].
  intros school Hschool. unfold dict_keys in Hschool.
  rewrite fst_zip in Hschool by (rewrite length_map, length_seq; lia).
  rewrite Hkeys in Hschool.
  apply list_elem_of_In, in_map_iff in Hschool as (name & <- & Hname).
  apply filter_In in Hname as [Hname _].
  pose proof csv_targets_design_entries as Hall. rewrite Forall_forall in Hall.
  apply Hall. by apply list_elem_of_In.
Qed.

(** X5. The entry of a loaded source is its own file's table: looking the
    school of a resolved target up in the returned mapping leads to the
    table parsed from that target's file, with as many records, every
    record tagged with the school and otherwise unchanged. *)
Theorem loaded_environment_entry (DATA_DIR : directory) (s : state)
    (name : string) (file : file) (t : DataFrame) :
  loadable DATA_DIR csv_targets →
  name ∈ csv_targets →
  find_file_safe DATA_DIR name = Some file →
  csv_contents file = inr t →
  (load_environment_data DATA_DIR s).1 = Return (length (heap s)) ∧
  ∃ d a t',
    heap (load_environment_data DATA_DIR s).2 !! length (heap s) = Some (ODict d) ∧
    dict_get (VStr (split_head "_" name)) d = Some a ∧
    heap (load_environment_data DATA_DIR s).2 !! a = Some (OFrame t') ∧
    length (rows t') = length (rows t) ∧
    Forall2 (λ r' r, cell "school" r' = VStr (split_head "_" name) ∧
                     ∀ c, c ≠ "school" → cell c r' = cell c r)
      (rows t') (rows t).
Proof.
  intros Hok Hname Hfind Hcsv.
  rewrite (load_environment_data_returns _ _ Hok). cbn [fst snd heap].
  split; [done|].
  pose proof (env_tables_elem_of _ _ _ _ _ Hname Hfind Hcsv) as Hin.
  set (tabs := env_tables DATA_DIR csv_targets) in *.
  destruct (loaded_entry_lookup tabs
              (heap s ++ [ODict (zip (map fst tabs)
                                   (seq (S (length (heap s))) (length tabs)))])
              _ _ Hin) as (a & Ha & Hlook).
  { unfold tabs. rewrite (env_tables_keys _ _ Hok).
    apply NoDup_schools_filter, csv_targets_schools_NoDup. }
  rewrite length_app, Nat.add_1_r in Ha. rewrite <- app_assoc in Hlook.
  destruct (tagged_table_rows (split_head "_" name) t) as [Hlen Hrows].
  eexists _, a, _. split_and!; [by apply list_lookup_middle|exact Ha|exact Hlook|done|done].
Qed.

End EnvironmentEntries.

Lemma loaded_environment_sources_have_design_entries_witness :
  ∃ d, heap (load_environment_data (H := Sample.libraries)
               Sample.dir_without_songdo Sample.empty_state).2 !! 0 = Some (ODict d) ∧
    ∀ school, school ∈ dict_keys d →
      is_Some (dict_get school EC_MAP) ∧ is_Some (dict_get school COLOR_MAP).
Proof.
  apply (loaded_environment_sources_have_design_entries (H := Sample.libraries)
           Sample.dir_without_songdo Sample.empty_state).
  vm_compute. reflexivity.
Defined.

Lemma loaded_environment_entry_witness :
  (load_environment_data (H := Sample.libraries)
     Sample.dir_without_songdo Sample.empty_state).1 = Return 0 ∧
  ∃ d a t',
    heap (load_environment_data (H := Sample.libraries)
            Sample.dir_without_songdo Sample.empty_state).2 !! 0 = Some (ODict d) ∧
    dict_get (VStr (split_head "_" "아라고_환경데이터.csv")) d = Some a ∧
    heap (load_environment_data (H := Sample.libraries)
            Sample.dir_without_songdo Sample.empty_state).2 !! a = Some (OFrame t') ∧
    length (rows t') = length (rows Sample.ara_env) ∧
    Forall2 (λ r' r, cell "school" r' = VStr (split_head "_" "아라고_환경데이터.csv") ∧
                     ∀ c, c ≠ "school" → cell c r' = cell c r)
      (rows t') (rows Sample.ara_env).
Proof.
  apply (loaded_environment_entry (H := Sample.libraries)
           Sample.dir_without_songdo Sample.empty_state "아라고_환경데이터.csv"
           (Sample.csv_file "아라고_환경데이터.csv" Sample.ara_env) Sample.ara_env).
  - exact dir_without_songdo_loadable.
  - apply (bool_decide_unpack _). vm_compute. exact I.
  - vm_compute. reflexivity.
  - reflexivity.
Defined.

(** ** What the growth load stores *)

Lemma list_find_sheet (xls : list (string * DataFrame)) (sheet : string) (t : DataFrame) :
  NoDup (map fst xls) →
  (sheet, t) ∈ xls →
  ∃ i, list_find (λ p, p.1 = sheet) xls = Some (i, (sheet, t)).
Proof.
  induction xls as [|[n0 t0] xls IH]; intros Hnd Hin.
  { by apply elem_of_nil in Hin. }
  simpl in Hnd. apply NoDup_cons in Hnd as [Hn0 Hnd]. simpl.
  apply elem_of_cons in Hin as [[= -> ->]|Hin].
  - exists 0. by rewrite decide_True.
  - rewrite decide_False.
    2:{ simpl. intros ->. apply Hn0. apply list_elem_of_In, in_map_iff.
        exists (sheet, t). split; [done|by apply list_elem_of_In]. }
    destruct (IH Hnd Hin) as [i ->]. by exists (S i).
Qed.

Lemma NoDup_sheet_keys (sheets : list (string * DataFrame)) :
  NoDup (map fst sheets) → NoDup (map (λ sh, VStr sh.1) sheets).
Proof.
  induction sheets as [|[n t] sheets IH]; simpl; [intros; constructor|].
  intros Hnd. apply NoDup_cons in Hnd as [Hout Hnd].
  apply NoDup_cons. split; [|by apply IH].
  intros Hin. apply Hout.
  apply list_elem_of_In, in_map_iff in Hin as ([n' t'] & [= Heq] & Hin).
  simpl in Heq. subst n'.
  apply list_elem_of_In, in_map_iff. by exists (n, t').
Qed.

Section GrowthLoad.
Context `{Libraries}.

(** The loop over sheets with distinct names: one entry and one tagged
    table per sheet, in workbook order. *)
Lemma load_growth_loop_run (xls sheets : list (string * DataFrame)) (growth_data : addr)
    (d : dict addr) (s : state) :
  NoDup (map fst xls) →
  (∀ sh, sh ∈ sheets → sh ∈ xls) →
  heap s !! growth_data = Some (ODict d) →
  NoDup (dict_keys d ++ map (λ sh, VStr sh.1) sheets) →
  load_growth_loop xls growth_data (map fst sheets) s =
  (Return tt,
   {| heap :=
        <[growth_data :=
            ODict (d ++ zip (map (λ sh, VStr sh.1) sheets)
                         (seq (length (heap s)) (length sheets)))]>
          (heap s ++ map (λ sh, OFrame (tagged_table sh.1 sh.2)) sheets);
      page := page s |}).
Proof.
  intros Hxls. revert d s.
  induction sheets as [|[sheet t] sheets IH]; intros d s Hsub Hd Hnd.
  - simpl. unfold ret. rewrite !app_nil_r, list_insert_id by done. by destruct s.
  - assert (Henv : growth_data < length (heap s)) by by eapply lookup_lt_Some.
    destruct (list_find_sheet xls sheet t Hxls) as [i Hfind]; [apply Hsub; by left|].
    cbn [map fst load_growth_loop]. unfold pd_read_excel. rewrite Hfind.
    rewrite (bind_Return (alloc (OFrame t)) _ s _ _ eq_refl).
    erewrite (bind_Return (df_setitem _ _ _));
      [|apply df_setitem_run; apply lookup_snoc_new].
    cbn [heap page]. rewrite insert_snoc_new.
    erewrite (bind_Return (dict_setitem _ _ _));
      [|apply dict_setitem_run; cbn [heap]; by apply lookup_app_l_Some].
    cbn [heap page].
    assert (Hfresh : VStr sheet ∉ dict_keys d).
    { apply NoDup_app in Hnd as (_ & Hdisj & _). intros Hin.
      apply (Hdisj _ Hin). by left. }
    rewrite (dict_set_fresh _ _ _ Hfresh).
    rewrite IH with (d := d ++ [(VStr sheet, length (heap s))]).
    + cbn [heap page length map]. rewrite length_insert, length_app. cbn [length].
      rewrite Nat.add_1_r. do 2 f_equal.
      rewrite <- (insert_app_l (heap s ++ [_]) _ growth_data)
        by (rewrite length_app; simpl; lia).
      rewrite list_insert_insert_eq. by rewrite <- !app_assoc.
    + intros sh Hsh. apply Hsub. by right.
    + cbn [heap]. apply list_lookup_insert_eq. rewrite length_app. simpl. lia.
    + rewrite dict_keys_app. simpl. by rewrite <- app_assoc.
Qed.

(** X6. A workbook that opens and whose sheets have distinct names: the
    load returns a new mapping with one entry per sheet, keyed by the
    sheet's name in workbook order, each leading to the sheet's table
    tagged with that name; nothing is put on the page. *)
Theorem load_growth_data_sheets (DATA_DIR : directory) (s : state) (file : file)
    (xls : list (string * DataFrame)) :
  find_file_safe DATA_DIR xlsx_name = Some file →
  excel_contents file = inr xls →
  NoDup (map fst xls) →
  load_growth_data DATA_DIR s =
  (Return (length (heap s)),
   {| heap :=
        heap s ++
        ODict (zip (map (λ sh, VStr sh.1) xls) (seq (S (length (heap s))) (length xls)))
        :: map (λ sh, OFrame (tagged_table sh.1 sh.2)) xls;
      page := page s |}).
Proof.
  intros Hfind Hexcel Hnd. unfold load_growth_data. rewrite Hfind, Hexcel.
  rewrite (bind_Return (lift (inr xls)) _ s _ _ eq_refl).
  rewrite (bind_Return new_dict _ s _ _ eq_refl).
  erewrite (bind_Return (load_growth_loop _ _ _)).
  2:{ apply (load_growth_loop_run xls xls (length (heap s)) []); [done|done| |].
      - apply lookup_snoc_new.
      - by apply NoDup_sheet_keys. }
  unfold ret. cbn [heap page]. rewrite length_app. cbn [length]. rewrite Nat.add_1_r.
  rewrite insert_app_l by (rewrite length_app; simpl; lia).
  by rewrite insert_snoc_new, <- app_assoc.
Qed.

(** The workbook cannot be resolved: one warning, and an empty new
    mapping is returned (lines 86-88). *)
Lemma load_growth_data_missing (DATA_DIR : directory) (s : state) :
  find_file_safe DATA_DIR xlsx_name = None →
  load_growth_data DATA_DIR s =
  (Return (length (heap s)),
   {| heap := heap s ++ [ODict []];
      page := page s ++ [st_error "생육 결과 데이터 파일을 찾을 수 없습니다."] |}).
Proof. intros Hfind. unfold load_growth_data. by rewrite Hfind. Qed.

End GrowthLoad.

Lemma load_growth_data_sheets_witness :
  load_growth_data (H := Sample.libraries) Sample.full_dir Sample.empty_state =
  (Return 0,
   {| heap :=
        [] ++
        ODict (zip (map (λ sh, VStr sh.1) Sample.workbook)
                 (seq 1 (length Sample.workbook)))
        :: map (λ sh, OFrame (tagged_table sh.1 sh.2)) Sample.workbook;
      page := [] |}).
Proof.
  apply (load_growth_data_sheets (H := Sample.libraries) Sample.full_dir
           Sample.empty_state
           (Sample.xlsx_file (Sample.hangul_nfd "4개교_생육결과데이터.xlsx") Sample.workbook)
           Sample.workbook).
  - vm_compute. reflexivity.
  - reflexivity.
  - apply (bool_decide_unpack _). vm_compute. exact I.
Defined.

(** ** How a run ends before the dashboard *)

Section BeforeTheDashboard.
Context `{Libraries}.

(** [startup] is the page header, the environmental load and the growth
    load, one after the other. *)
Lemma startup_run (DATA_DIR : directory) (s : state) :
  startup DATA_DIR s =
  match load_environment_data DATA_DIR
          {| heap := heap s;
             page := ((page s ++ [st_set_page_config]) ++ [st_markdown]) ++ [st_spinner] |}
  with
  | (Return env_data, s1) =>
      match load_growth_data DATA_DIR s1 with
      | (Return growth_data, s2) => (Return (env_data, growth_data), s2)
      | (Raise e, s2) => (Raise e, s2)
      | (Halt, s2) => (Halt, s2)
      end
  | (Raise e, s1) => (Raise e, s1)
  | (Halt, s1) => (Halt, s1)
  end.
Proof.
  unfold startup, load_all.
  rewrite (bind_Return (emit _) _ s _ _ eq_refl).
  rewrite (bind_Return (emit _) _ _ _ _ eq_refl).
  rewrite (bind_Return (emit _) _ _ _ _ eq_refl).
  cbn [heap page]. unfold bind at 1.
  destruct (load_environment_data DATA_DIR _) as [[env| |] s1]; [|done|done].
  unfold bind at 1.
  by destruct (load_growth_data DATA_DIR s1) as [[growth| |] s2].
Qed.

Lemma main_run (DATA_DIR : directory) (school_option : string) (s : state) :
  main DATA_DIR school_option s =
  match startup DATA_DIR s with
  | (Return loaded, s1) =>
      match barrier loaded.1 loaded.2 s1 with
      | (Return _, s2) => dashboard loaded.1 loaded.2 school_option s2
      | (Raise e, s2) => (Raise e, s2)
      | (Halt, s2) => (Halt, s2)
      end
  | (Raise e, s1) => (Raise e, s1)
  | (Halt, s1) => (Halt, s1)
  end.
Proof.
  unfold main. unfold bind at 1.
  destruct (startup DATA_DIR s) as [[loaded| |] s1]; [|done|done].
  unfold bind at 1. by destruct (barrier _ _ s1) as [[[]| |] s2].
Qed.

(** X7. A missing workbook is tolerated by the load and stops the run at
    the barrier: with the environmental files in order, the run ends
    with [st.stop()], the page holding the header, the warnings for
    missing environmental files and the warning for the workbook. *)
Theorem main_halts_without_workbook (DATA_DIR : directory) (school_option : string)
    (s : state) :
  loadable DATA_DIR csv_targets →
  find_file_safe DATA_DIR xlsx_name = None →
  ∃ s', main DATA_DIR school_option s = (Halt, s') ∧
    page s' =
      ((((page s ++ [st_set_page_config]) ++ [st_markdown]) ++ [st_spinner])
       ++ env_warnings DATA_DIR csv_targets)
      ++ [st_error "생육 결과 데이터 파일을 찾을 수 없습니다."].
Proof.
  intros Hok Hfind. rewrite main_run, startup_run.
  rewrite (load_environment_data_returns _ _ Hok).
  rewrite (load_growth_data_missing _ _ Hfind). cbn [fst snd heap page].
  erewrite barrier_run; cycle 1.
  - cbn [heap]. rewrite <- app_assoc. by apply list_lookup_middle.
  - cbn [heap]. apply lookup_snoc_new.
  - rewrite orb_true_r. eexists. split; [reflexivity|done].
Qed.

(** X8. A workbook that is there and cannot be opened is not tolerated: the
    reader's exception ends the run. *)
Theorem main_raises_on_unreadable_workbook (DATA_DIR : directory)
    (school_option : string) (s : state) (file : file) (e : exn) :
  loadable DATA_DIR csv_targets →
  find_file_safe DATA_DIR xlsx_name = Some file →
  excel_contents file = inl e →
  (main DATA_DIR school_option s).1 = Raise e.
Proof.
  intros Hok Hfind Hexcel. rewrite main_run, startup_run.
  rewrite (load_environment_data_returns _ _ Hok).
  unfold load_growth_data. by rewrite Hfind, Hexcel.
Qed.



End BeforeTheDashboard.

Lemma main_halts_without_workbook_witness :
  ∃ s', main (H := Sample.libraries) Sample.dir_without_workbook "전체"
          Sample.empty_state = (Halt, s') ∧
    page s' =
      (((([] ++ [st_set_page_config]) ++ [st_markdown]) ++ [st_spinner])
       ++ env_warnings (H := Sample.libraries) Sample.dir_without_workbook csv_targets)
      ++ [st_error "생육 결과 데이터 파일을 찾을 수 없습니다."].
Proof.
  apply (main_halts_without_workbook (H := Sample.libraries)
           Sample.dir_without_workbook "전체" Sample.empty_state).
  - intros name file Hin Hfind.
    repeat (apply elem_of_cons in Hin as [->|Hin]);
      [..|by apply elem_of_nil in Hin];
      vm_compute in Hfind;
      (injection Hfind as <-; eexists; split; [reflexivity|discriminate]).
  - vm_compute. reflexivity.
Defined.

Lemma main_raises_on_unreadable_workbook_witness :
  (main (H := Sample.libraries) Sample.dir_with_corrupt_workbook "전체"
     Sample.empty_state).1 = Raise (FileError "File is not a zip file").
Proof.
  apply (main_raises_on_unreadable_workbook (H := Sample.libraries)
           Sample.dir_with_corrupt_workbook "전체" Sample.empty_state
           {| file_name := "4개교_생육결과데이터.xlsx";
              csv_contents := Sample.not_a_csv;
              excel_contents := Sample.not_a_workbook |}).
  - intros name file Hin Hfind.
    repeat (apply elem_of_cons in Hin as [->|Hin]);
      [..|by apply elem_of_nil in Hin];
      vm_compute in Hfind;
      (injection Hfind as <-; eexists; split; [reflexivity|discriminate]).
  - vm_compute. reflexivity.
  - reflexivity.
Defined.


(** ** The barrier is the only stop *)

Create HintDb halt.

Lemma never_halts_ret {A} (a : A) : never_halts (ret a).
Proof. by intros s. Qed.

Lemma never_halts_raise {A} (e : exn) : never_halts (raise (A := A) e).
Proof. by intros s. Qed.

Lemma never_halts_lift {A} (r : exn + A) : never_halts (lift r).
Proof. by destruct r; intros s. Qed.

Lemma never_halts_alloc (o : obj) : never_halts (alloc o).
Proof. by intros s. Qed.

Lemma never_halts_load (a : addr) : never_halts (load a).
Proof. intros s. unfold load. by destruct (heap s !! a). Qed.

Lemma never_halts_store (a : addr) (o : obj) : never_halts (store a o).
Proof. by intros s. Qed.

Lemma never_halts_emit (e : element) : never_halts (emit e).
Proof. by intros s. Qed.

Lemma never_halts_bind {A B} (c : M A) (k : A → M B) :
  never_halts c → (∀ a, never_halts (k a)) → never_halts (bind c k).
Proof.
  intros Hc Hk s. unfold bind. specialize (Hc s).
  destruct (c s) as [[a|e|] s1]; simpl in *; [apply Hk|done|done].
Qed.

#[local] Hint Resolve never_halts_ret never_halts_raise never_halts_lift
  never_halts_alloc never_halts_load never_halts_store never_halts_emit : halt.

Ltac halt_step :=
  first
    [ apply never_halts_bind; [|intros ?]
    | match goal with
      | |- never_halts (match ?x with _ => _ end) => destruct x
      | |- never_halts (if ?b then _ else _) => destruct b
      end
    | solve [eauto with halt] ].

Ltac no_halt := repeat halt_step.

Lemma never_halts_load_frame (a : addr) : never_halts (load_frame a).
Proof. unfold load_frame. no_halt. Qed.

Lemma never_halts_load_dict (a : addr) : never_halts (load_dict a).
Proof. unfold load_dict. no_halt. Qed.

#[local] Hint Resolve never_halts_load_frame never_halts_load_dict : halt.

Lemma never_halts_load_frames (l : list addr) : never_halts (load_frames l).
Proof. induction l; simpl; no_halt. Qed.

Lemma never_halts_dict_setitem (d : addr) (k : pyval) (v : addr) :
  never_halts (dict_setitem d k v).
Proof. unfold dict_setitem. no_halt. Qed.

Lemma never_halts_dict_getitem {V} (k : pyval) (d : dict V) :
  never_halts (dict_getitem k d).
Proof. unfold dict_getitem. no_halt. Qed.

Lemma never_halts_df_len (df : addr) : never_halts (df_len df).
Proof. unfold df_len. no_halt. Qed.

Lemma never_halts_df_getitem (df : addr) (col : string) : never_halts (df_getitem df col).
Proof. unfold df_getitem. no_halt. Qed.

Lemma never_halts_df_setitem (df : addr) (col : string) (v : pyval) :
  never_halts (df_setitem df col v).
Proof. unfold df_setitem. no_halt. Qed.

Lemma never_halts_pd_DataFrame (data : list (list pyval)) (cols : list string) :
  never_halts (pd_DataFrame data cols).
Proof. unfold pd_DataFrame. no_halt. Qed.

#[local] Hint Resolve never_halts_load_frames never_halts_dict_setitem
  never_halts_dict_getitem never_halts_df_len never_halts_df_getitem
  never_halts_df_setitem never_halts_pd_DataFrame : halt.

Lemma never_halts_pd_concat (tables : list addr) : never_halts (pd_concat tables).
Proof. unfold pd_concat. no_halt. Qed.

#[local] Hint Resolve never_halts_pd_concat : halt.

Section OnlyStop.
Context `{Libraries}.

Lemma never_halts_load_environment_loop (DATA_DIR : directory) (env_data : addr)
    (names : list string) :
  never_halts (load_environment_loop DATA_DIR env_data names).
Proof. induction names as [|name rest IH]; simpl; unfold pd_read_csv; no_halt. Qed.

Lemma never_halts_load_growth_loop (xls : list (string * DataFrame)) (growth_data : addr)
    (sheet_names : list string) :
  never_halts (load_growth_loop xls growth_data sheet_names).
Proof.
  induction sheet_names as [|sheet rest IH]; simpl; unfold pd_read_excel; no_halt.
Qed.

#[local] Hint Resolve never_halts_load_environment_loop never_halts_load_growth_loop : halt.

Lemma never_halts_startup (DATA_DIR : directory) : never_halts (startup DATA_DIR).
Proof.
  unfold startup, load_all, load_environment_data, load_growth_data, new_dict. no_halt.
Qed.

Lemma never_halts_column_mean (df : addr) (col : string) : never_halts (column_mean df col).
Proof. unfold column_mean. no_halt. Qed.

Lemma never_halts_concat_values (d : addr) : never_halts (concat_values d).
Proof. unfold concat_values. no_halt. Qed.

#[local] Hint Resolve never_halts_column_mean never_halts_concat_values : halt.

Lemma never_halts_overview_loop (items : list (pyval * addr))
    (rows : list (list pyval)) (total : Z) :
  never_halts (overview_loop items rows total).
Proof.
  revert rows total. induction items as [|[school df] items IH]; intros; simpl; no_halt.
Qed.

Lemma never_halts_weight_means_loop (items : list (pyval * addr)) (acc : dict pyfloat) :
  never_halts (weight_means_loop items acc).
Proof.
  revert acc. induction items as [|[school df] items IH]; intros; simpl; no_halt.
Qed.

Lemma never_halts_avg_rows_loop (env_data : addr) (schools : list pyval)
    (avg_rows : list (list pyval)) :
  never_halts (avg_rows_loop env_data schools avg_rows).
Proof.
  revert avg_rows. induction schools as [|school schools IH]; intros; simpl; no_halt.
Qed.

Lemma never_halts_time_series_loop (env_data : addr) (schools : list pyval) :
  never_halts (time_series_loop env_data schools).
Proof. induction schools as [|school schools IH]; simpl; no_halt. Qed.

Lemma never_halts_ec_weight_loop (items : list (pyval * addr))
    (ec_weight : list (list pyval)) :
  never_halts (ec_weight_loop items ec_weight).
Proof.
  revert ec_weight. induction items as [|[school df] items IH]; intros; simpl; no_halt.
Qed.

#[local] Hint Resolve never_halts_overview_loop never_halts_weight_means_loop
  never_halts_avg_rows_loop never_halts_time_series_loop
  never_halts_ec_weight_loop : halt.

Lemma never_halts_dashboard (env_data growth_data : addr) (school_option : string) :
  never_halts (dashboard env_data growth_data school_option).
Proof.
  unfold dashboard, selected_schools, tab1, tab2, tab3, overview, overall_mean,
    weight_means, environment_averages, weight_by_source.
  no_halt.
Qed.

(** X11. A run ends with [st.stop()] only at the barrier: loading has
    returned, the run stops in the state loading left, and one of the
    two mappings is empty.  Nothing after the barrier stops a run. *)
Theorem main_halts_only_at_barrier (DATA_DIR : directory) (school_option : string)
    (s s' : state) :
  main DATA_DIR school_option s = (Halt, s') →
  ∃ env_data growth_data,
    startup DATA_DIR s = (Return (env_data, growth_data), s') ∧
    (heap s' !! env_data = Some (ODict []) ∨ heap s' !! growth_data = Some (ODict [])).
Proof.
  rewrite main_run. intros Hrun.
  destruct (startup DATA_DIR s) as [[[env growth]| |] s1] eqn:Hstart.
  - destruct (startup_tables_dicts _ _ _ _ _ Hstart)
      as [(e & _ & He & _) (g & _ & Hg & _)].
    cbn [fst snd] in Hrun. rewrite (barrier_run _ _ _ _ _ He Hg) in Hrun.
    destruct (dict_is_empty e || dict_is_empty g) eqn:Hempty.
    + injection Hrun as <-. exists env, growth. split; [done|].
      apply orb_true_iff in Hempty as [Hempty|Hempty].
      * left. by destruct e.
      * right. by destruct g.
    + pose proof (never_halts_dashboard env growth school_option s1) as Hno.
      by rewrite Hrun in Hno.
  - done.
  - pose proof (never_halts_startup DATA_DIR s) as Hno. by rewrite Hstart in Hno.
Qed.

End OnlyStop.

Lemma main_halts_only_at_barrier_witness :
  ∃ env_data growth_data,
    startup (H := Sample.libraries) Sample.dir_without_env Sample.empty_state =
      (Return (env_data, growth_data), Sample.started_without_env.2) ∧
    (heap Sample.started_without_env.2 !! env_data = Some (ODict []) ∨
     heap Sample.started_without_env.2 !! growth_data = Some (ODict [])).
Proof.
  apply (main_halts_only_at_barrier (H := Sample.libraries)
           Sample.dir_without_env "전체" Sample.empty_state).
  vm_compute. reflexivity.
Defined.

(** Partial data passes the barrier: one environmental file is missing,
    three sources and the four sheets are loaded, and the run goes on
    with the dashboard. *)
Lemma barrier_passes_witness :
  main (H := Sample.libraries) Sample.dir_without_songdo "전체" Sample.empty_state =
  dashboard (H := Sample.libraries) 0 4 "전체" Sample.started_without_songdo.2.
Proof.
  apply (barrier_passes (H := Sample.libraries) Sample.dir_without_songdo "전체"
           Sample.empty_state Sample.started_without_songdo.2 0 4
           [ (VStr "하늘고", 1); (VStr "아라고", 2); (VStr "동산고", 3) ]
           [ (VStr "송도고", 5); (VStr "하늘고", 6); (VStr "아라고", 7); (VStr "동산고", 8) ]).
  - vm_compute. reflexivity.
  - vm_compute. reflexivity.
  - vm_compute. reflexivity.
  - discriminate.
  - discriminate.
Defined.

(** ** The tables of tab 2 and tab 3 *)

Section MoreAggregation.
Context `{Libraries}.

Lemma column_mean_run (df : addr) (col : string) (t : DataFrame) (m : pyfloat) (s : state) :
  heap s !! df = Some (OFrame t) →
  column_has_mean t col m →
  column_mean df col s = (Return m, s).
Proof.
  intros Hdf [Hcol Hmean]. unfold column_mean.
  erewrite (bind_Return (df_getitem _ _)).
  2:{ rewrite (df_getitem_run _ _ _ _ Hdf). unfold frame_getitem.
      by rewrite decide_True. }
  by rewrite Hmean.
Qed.

Lemma avg_rows_loop_run (env_data : addr) (d items : dict addr) (ts : list DataFrame)
    (ms : list env_means) (avg_rows : list (list pyval)) (s : state) :
  heap s !! env_data = Some (ODict d) →
  (∀ item, item ∈ items → dict_get item.1 d = Some item.2) →
  (∀ item, item ∈ items → is_Some (dict_get item.1 EC_MAP)) →
  tables_of s items ts →
  Forall2 table_means ts ms →
  avg_rows_loop env_data (dict_keys items) avg_rows s =
  (Return (avg_rows ++ zip_with (λ item m, avg_row item.1 m) items ms), s).
Proof.
  intros Hd Hget Hec Hts. revert ms avg_rows.
  induction Hts as [|[school df] t items ts Ht _ IH]; intros ms avg_rows Hms.
  - apply Forall2_nil_inv_l in Hms as ->. simpl. by rewrite app_nil_r.
  - apply Forall2_cons_inv_l in Hms as (m & ms' & (Htemp & Hhum & Hph & Hmec) & Hms & ->).
    cbn [dict_keys map fst avg_rows_loop].
    rewrite (bind_Return _ _ _ _ _ (load_dict_run _ _ _ Hd)).
    assert (Hschool : dict_get school d = Some df) by (apply (Hget (school, df)); by left).
    unfold dict_getitem at 1. rewrite Hschool.
    rewrite (bind_Return (ret df) _ s _ _ eq_refl).
    simpl in Ht.
    rewrite (bind_Return _ _ _ _ _ (column_mean_run _ _ _ _ _ Ht Htemp)).
    rewrite (bind_Return _ _ _ _ _ (column_mean_run _ _ _ _ _ Ht Hhum)).
    rewrite (bind_Return _ _ _ _ _ (column_mean_run _ _ _ _ _ Ht Hph)).
    rewrite (bind_Return _ _ _ _ _ (column_mean_run _ _ _ _ _ Ht Hmec)).
    destruct (Hec (school, df)) as [target Htarget]; [by left|].
    change (dict_get school EC_MAP = Some target) in Htarget.
    unfold dict_getitem at 1. rewrite Htarget.
    rewrite (bind_Return (ret target) _ s _ _ eq_refl).
    fold (dict_keys items).
    assert (Hget' : ∀ item, item ∈ items → dict_get item.1 d = Some item.2)
      by (intros item Hitem; apply Hget; by right).
    assert (Hec' : ∀ item, item ∈ items → is_Some (dict_get item.1 EC_MAP))
      by (intros item Hitem; apply Hec; by right).
    rewrite (IH Hget' Hec' ms' _ Hms).
    cbn [zip_with fst]. rewrite <- app_assoc. cbn [app].
    unfold avg_row at 2, dict_get_or_None. by rewrite Htarget.
Qed.

(** X12. With all schools selected, the averages table has one row per
    loaded source, in the mapping's order: the school, the means of its
    own table's four columns and its target EC.  The state gains the
    table [avg_df] and nothing else. *)
Theorem environment_averages_rows (s : state) (env_data : addr) (d : dict addr)
    (ts : list DataFrame) (ms : list env_means) :
  heap s !! env_data = Some (ODict d) →
  NoDup (dict_keys d) →
  tables_of s d ts →
  Forall2 table_means ts ms →
  (∀ school, school ∈ dict_keys d → is_Some (dict_get school EC_MAP)) →
  (selected <- selected_schools env_data "전체" ;;
   environment_averages env_data selected) s =
  (Return (zip_with (λ item m, avg_row item.1 m) d ms, length (heap s)),
   {| heap := heap s ++
              [OFrame (frame_of_lists (zip_with (λ item m, avg_row item.1 m) d ms)
                         avg_columns)];
      page := page s |}).
Proof.
  intros Hd Hnd Hts Hms Hec. unfold selected_schools. rewrite decide_True by done.
  erewrite (bind_Return (bind (load_dict _) _)).
  2:{ by rewrite (bind_Return _ _ _ _ _ (load_dict_run _ _ _ Hd)). }
  unfold environment_averages.
  erewrite (bind_Return (avg_rows_loop _ _ _)).
  2:{ apply (avg_rows_loop_run env_data d d ts ms [] s); try done.
      - intros [k a] Hin. by apply dict_get_elem_of.
      - intros [k a] Hin. apply Hec. apply list_elem_of_fmap. by exists (k, a). }
  done.
Qed.

(** X13. A school chosen in the sidebar that the load left out: tab 2 puts
    its heading on the page and then [env_data[school]] raises
    [KeyError]; no average is computed and no table is built. *)
Theorem tab2_selected_school_not_loaded (s : state) (env_data : addr) (d : dict addr)
    (school_option : string) :
  heap s !! env_data = Some (ODict d) →
  school_option ≠ "전체" →
  VStr school_option ∉ dict_keys d →
  (selected <- selected_schools env_data school_option ;; tab2 env_data selected) s =
  (Raise (KeyError (VStr school_option)),
   {| heap := heap s; page := page s ++ [st_subheader "📊 학교별 환경 평균 비교"] |}).
Proof.
  intros Hd Hne Habsent. unfold selected_schools. rewrite decide_False by done.
  rewrite (bind_Return (ret _) _ s _ _ eq_refl). unfold tab2.
  rewrite (bind_Return (emit _) _ s _ _ eq_refl).
  erewrite (bind_Raise (environment_averages _ _)); [done|].
  unfold environment_averages.
  erewrite (bind_Raise (avg_rows_loop _ _ _)); [done|].
  by apply (avg_rows_loop_absent _ _ _ _ d).
Qed.

Lemma ec_weight_loop_missing (before after : list (pyval * addr)) (school : pyval)
    (df : addr) (ec_weight : list (list pyval)) (s : state) :
  Forall (λ item, is_Some (dict_get item.1 EC_MAP) ∧
                  ∃ m, column_mean item.2 "생중량(g)" s = (Return m, s)) before →
  dict_get school EC_MAP = None →
  ec_weight_loop (before ++ (school, df) :: after) ec_weight s =
  (Raise (KeyError school), s).
Proof.
  intros Hbefore Hnone. revert ec_weight.
  induction Hbefore as [|[k a] before [[target Htarget] [m Hm]] _ IH]; intros ec_weight.
  - cbn [app ec_weight_loop]. unfold dict_getitem. by rewrite Hnone.
  - change (dict_get k EC_MAP = Some target) in Htarget.
    change (column_mean a "생중량(g)" s = (Return m, s)) in Hm.
    cbn [app ec_weight_loop]. unfold dict_getitem at 1. rewrite Htarget.
    rewrite (bind_Return (ret target) _ s _ _ eq_refl).
    rewrite (bind_Return _ _ _ _ _ Hm). apply IH.
Qed.

(** X14. The weight table is loud where the overview is silent: the first
    source of the growth mapping without an entry in [EC_MAP] makes
    line 269 raise [KeyError] for that school; no table is built and
    the state is as before. *)
Theorem weight_by_source_missing_design_entry (s : state) (growth_data : addr)
    (before after : list (pyval * addr)) (school : pyval) (df : addr) :
  heap s !! growth_data = Some (ODict (before ++ (school, df) :: after)) →
  Forall (λ item, is_Some (dict_get item.1 EC_MAP) ∧
                  ∃ m, column_mean item.2 "생중량(g)" s = (Return m, s)) before →
  dict_get school EC_MAP = None →
  weight_by_source growth_data s = (Raise (KeyError school), s).
Proof.
  intros Hg Hbefore Hnone. unfold weight_by_source.
  rewrite (bind_Return _ _ _ _ _ (load_dict_run _ _ _ Hg)).
  erewrite (bind_Raise (ec_weight_loop _ _)); [done|].
  by apply ec_weight_loop_missing.
Qed.

End MoreAggregation.

Lemma environment_averages_rows_witness :
  (selected <- selected_schools 0 "전체" ;;
   environment_averages (H := Sample.libraries) 0 selected) Sample.loaded_state =
  (Return (zip_with (λ item m, avg_row item.1 m) Sample.env_dict sample_env_means,
           length (heap Sample.loaded_state)),
   {| heap := heap Sample.loaded_state ++
              [OFrame (frame_of_lists
                         (zip_with (λ item m, avg_row item.1 m)
                            Sample.env_dict sample_env_means) avg_columns)];
      page := page Sample.loaded_state |}).
Proof.
  apply (environment_averages_rows (H := Sample.libraries) Sample.loaded_state 0
           Sample.env_dict Sample.env_frames sample_env_means).
  - vm_compute. reflexivity.
  - apply (bool_decide_unpack _). vm_compute. exact I.
  - repeat (constructor; [vm_compute; reflexivity|]). constructor.
  - repeat (constructor;
            [unfold table_means, column_has_mean; split_and!;
             first [apply (bool_decide_unpack _); vm_compute; exact I
                   |vm_compute; reflexivity]|]).
    constructor.
  - intros school Hschool.
    repeat (apply elem_of_cons in Hschool as [->|Hschool]);
      [..|by apply elem_of_nil in Hschool]; vm_compute; eauto.
Defined.

Lemma tab2_selected_school_not_loaded_witness :
  (selected <- selected_schools 0 "송도고" ;;
   tab2 (H := Sample.libraries) 0 selected) Sample.started_without_songdo.2 =
  (Raise (KeyError (VStr "송도고")),
   {| heap := heap Sample.started_without_songdo.2;
      page := page Sample.started_without_songdo.2 ++
              [st_subheader "📊 학교별 환경 평균 비교"] |}).
Proof.
  apply (tab2_selected_school_not_loaded (H := Sample.libraries)
           Sample.started_without_songdo.2 0
           [ (VStr "하늘고", 1); (VStr "아라고", 2); (VStr "동산고", 3) ] "송도고").
  - vm_compute. reflexivity.
  - discriminate.
  - apply (bool_decide_unpack _). vm_compute. exact I.
Defined.

Lemma weight_by_source_missing_design_entry_witness :
  weight_by_source (H := Sample.libraries) 2 Sample.started_unknown_school.2 =
  (Raise (KeyError (VStr "극지고")), Sample.started_unknown_school.2).
Proof.
  apply (weight_by_source_missing_design_entry (H := Sample.libraries)
           Sample.started_unknown_school.2 2 [ (VStr "송도고", 3) ] [] (VStr "극지고") 4).
  - vm_compute. reflexivity.
  - constructor; [|constructor]. split.
    + vm_compute. eauto.
    + exists (Finite 4). vm_compute. reflexivity.
  - reflexivity.
Defined.

(** ** Concatenating tables with the same columns *)








(** ** A sheet without the weight column *)

Section MissingColumn.
Context `{Libraries}.

Lemma column_mean_missing (df : addr) (col : string) (t : DataFrame) (s : state) :
  heap s !! df = Some (OFrame t) →
  col ∉ columns t →
  column_mean df col s = (Raise (KeyError (VStr col)), s).
Proof.
  intros Hdf Hcol. unfold column_mean.
  erewrite (bind_Raise (df_getitem _ _)); [done|].
  rewrite (df_getitem_run _ _ _ _ Hdf). unfold frame_getitem.
  by rewrite decide_False.
Qed.

Lemma weight_means_loop_missing (before after : list (pyval * addr)) (school : pyval)
    (df : addr) (t : DataFrame) (acc : dict pyfloat) (s : state) :
  Forall (λ item, ∃ m, column_mean item.2 "생중량(g)" s = (Return m, s)) before →
  heap s !! df = Some (OFrame t) →
  "생중량(g)" ∉ columns t →
  weight_means_loop (before ++ (school, df) :: after) acc s =
  (Raise (KeyError (VStr "생중량(g)")), s).
Proof.
  intros Hbefore Hdf Hcol. revert acc.
  induction Hbefore as [|[k a] before [m Hm] _ IH]; intros acc.
  - cbn [app weight_means_loop].
    by rewrite (bind_Raise _ _ _ _ _ (column_mean_missing _ _ _ _ Hdf Hcol)).
  - change (column_mean a "생중량(g)" s = (Return m, s)) in Hm.
    cbn [app weight_means_loop]. rewrite (bind_Return _ _ _ _ _ Hm). apply IH.
Qed.

(** X16. Every sheet of the workbook is taken for a growth table: the first
    sheet without the column [생중량(g)] makes the computation of the
    mean weights (lines 182-185) raise [KeyError] for that column, with
    the state as before. *)
Theorem weight_means_missing_column (s : state) (growth_data : addr)
    (before after : list (pyval * addr)) (school : pyval) (df : addr) (t : DataFrame) :
  heap s !! growth_data = Some (ODict (before ++ (school, df) :: after)) →
  Forall (λ item, ∃ m, column_mean item.2 "생중량(g)" s = (Return m, s)) before →
  heap s !! df = Some (OFrame t) →
  "생중량(g)" ∉ columns t →
  weight_means growth_data s = (Raise (KeyError (VStr "생중량(g)")), s).
Proof.
  intros Hg Hbefore Hdf Hcol. unfold weight_means.
  rewrite (bind_Return _ _ _ _ _ (load_dict_run _ _ _ Hg)).
  by eapply weight_means_loop_missing.
Qed.

End MissingColumn.

Lemma weight_means_missing_column_witness :
  weight_means (H := Sample.libraries) 2 Sample.started_notes_sheet.2 =
  (Raise (KeyError (VStr "생중량(g)")), Sample.started_notes_sheet.2).
Proof.
  apply (weight_means_missing_column (H := Sample.libraries)
           Sample.started_notes_sheet.2 2 [ (VStr "송도고", 3) ] [] (VStr "메모") 4
           (tagged_table "메모" (frame_of_lists [[VStr "5월 측정분"]] ["비고"]))).
  - vm_compute. reflexivity.
  - constructor; [|constructor]. exists (Finite 4). vm_compute. reflexivity.
  - vm_compute. reflexivity.
  - apply (bool_decide_unpack _). vm_compute. exact I.
Defined.
